(** * Presentation outline generator: template lookup, slide generation, export

    A shallow embedding of [main.py] (the three functions below the
    [TEMPLATES] table: [generate_detailed_content], [generate_slide_details]
    and [export_to_formats]) together with the properties of its
    specification.

    - A Python [str] is a sequence of Unicode code points, so [len] counts
      code points; it is modelled as a list of code points.
    - A Python [int] is unbounded: [Z].
    - A [dict] keeps its insertion order: an association list, read with
      [dict.get] (a default) or [d[k]] (a [KeyError]).
    - The generator builds only fresh objects and reads only immutable
      arguments and the constant [TEMPLATES]: it is a function into an error
      type. The exporter receives a list its caller keeps (and edits) and
      stores that very list in the record it returns: it is modelled over an
      explicit object store, so that aliasing and the absence of writes are
      statements about the store. *)

From Stdlib Require Import String Ascii Decimal DecimalString.
From Stdlib Require Import Bool List ZArith NArith Lia.
Import ListNotations.

(** ** Strings *)

Module PyStr.

Definition codepoint := N.
Definition str := list codepoint.

(** A source literal (every literal of the modelled functions is ASCII). *)
Definition lit (s : string) : str := map N_of_ascii (list_ascii_of_string s).

(** One character of a source literal. *)
Definition char (a : ascii) : codepoint := N_of_ascii a.

(** ["\n"] *)
Definition nl : str := [10%N].

Fixpoint str_eqb (a b : str) : bool :=
  match a, b with
  | [], [] => true
  | x :: a', y :: b' => N.eqb x y && str_eqb a' b'
  | _, _ => false
  end.

(** [len(s)] *)
Definition len {A} (l : list A) : Z := Z.of_nat (length l).

(** [s * n]: repetition; a count that is zero or negative gives [""]. *)
Definition str_mul (s : str) (n : Z) : str := concat (repeat s (Z.to_nat n)).

(** [str(n)] of an [int], as an f-string formats it: decimal digits. *)
Definition str_of_int (n : Z) : str := lit (NilZero.string_of_int (Z.to_int n)).

(** [s in r] on strings: [s] occurs in [r] as a contiguous run. *)
Definition substring (s r : str) : Prop := exists pre post, r = pre ++ s ++ post.

End PyStr.
Import PyStr.

(** ** Exceptions *)

Inductive exn : Type :=
| KeyError
| IndexError
| TypeError
| Unsupported. (* an object outside the model: a dangling reference,
                  the formatting of a list or dict *)

Definition result (A : Type) : Type := (exn + A)%type.
Definition Ok {A} (a : A) : result A := inr a.
Definition Raise {A} (e : exn) : result A := inl e.

Definition rbind {A B} (m : result A) (f : A -> result B) : result B :=
  match m with
  | inl e => inl e
  | inr a => f a
  end.

Declare Scope result_scope.
Delimit Scope result_scope with res.
Notation "x <- m ;; k" := (rbind m (fun x => k))
  (at level 61, m at next level, right associativity) : result_scope.

(** A [for] loop whose body may raise: the loop variable runs over [xs], the
    state [s] stands for the variables the body assigns. *)
Fixpoint for_each {A S} (xs : list A) (s : S) (body : S -> A -> result S)
  : result S :=
  match xs with
  | [] => Ok s
  | x :: xs' =>
      match body s x with
      | inl e => inl e
      | inr s' => for_each xs' s' body
      end
  end.

(** ** Dicts, list indexing, [range] *)

Definition dict (V : Type) : Type := list (str * V).

Fixpoint dict_lookup {V} (d : dict V) (k : str) : option V :=
  match d with
  | [] => None
  | (k', v) :: d' => if str_eqb k' k then Some v else dict_lookup d' k
  end.

Definition dict_keys {V} (d : dict V) : list str := map fst d.

(** [d.get(k, default)] *)
Definition dict_get {V} (d : dict V) (k : str) (default : V) : V :=
  match dict_lookup d k with
  | Some v => v
  | None => default
  end.

(** [d[k]] *)
Definition dict_getitem {V} (d : dict V) (k : str) : result V :=
  match dict_lookup d k with
  | Some v => Ok v
  | None => Raise KeyError
  end.

(** [l[i]]: a negative index counts from the end; out of range raises. *)
Definition list_getitem {A} (l : list A) (i : Z) : result A :=
  let n := len l in
  let j := if (i <? 0)%Z then (n + i)%Z else i in
  if ((0 <=? j) && (j <? n))%Z
  then match nth_error l (Z.to_nat j) with
       | Some a => Ok a
       | None => Raise IndexError
       end
  else Raise IndexError.

(** [range(n)]: empty when [n <= 0]. *)
Definition range (n : Z) : list Z := map Z.of_nat (seq 0 (Z.to_nat n)).

(** ** The template table *)

Definition TEMPLATES : dict (list str) :=
  [ (lit "business",
      [ lit "Executive Summary";
        lit "Problem Statement";
        lit "Market Analysis";
        lit "Solution Overview";
        lit "Business Model";
        lit "Financial Projections";
        lit "Implementation Timeline";
        lit "Team & Resources";
        lit "Risk Assessment";
        lit "Call to Action" ]);
    (lit "technical",
      [ lit "Introduction & Overview";
        lit "Problem Definition";
        lit "Technical Requirements";
        lit "Architecture & Design";
        lit "Implementation Details";
        lit "Testing & Validation";
        lit "Performance Analysis";
        lit "Security Considerations";
        lit "Future Enhancements";
        lit "Conclusion" ]);
    (lit "educational",
      [ lit "Learning Objectives";
        lit "Background & Context";
        lit "Key Concepts";
        lit "Detailed Explanation";
        lit "Real-world Examples";
        lit "Interactive Activity";
        lit "Assessment & Review";
        lit "Additional Resources";
        lit "Q&A Session";
        lit "Summary & Next Steps" ]);
    (lit "research",
      [ lit "Research Question";
        lit "Literature Review";
        lit "Methodology";
        lit "Data Collection";
        lit "Results & Analysis";
        lit "Discussion";
        lit "Limitations";
        lit "Implications";
        lit "Future Research";
        lit "Conclusions" ]) ].

(** ** Slides and the generator *)

(** The dict [{"title": ..., "content": ...}] the generator builds. *)
Record slide : Type := Slide { title : str; content : str }.

(** The dict literal of [generate_slide_details], built afresh at each call. *)
Definition content_map (topic : str) : dict str :=
  [ (lit "Executive Summary",
      lit "Brief overview of " ++ topic ++ lit " and its key benefits for stakeholders");
    (lit "Problem Statement",
      lit "Current challenges and pain points related to " ++ topic);
    (lit "Market Analysis",
      lit "Market size, trends, and opportunities in the " ++ topic ++ lit " space");
    (lit "Solution Overview",
      lit "How " ++ topic ++ lit " addresses the identified problems");
    (lit "Introduction & Overview",
      lit "Welcome to our presentation on " ++ topic ++ lit " - setting the stage");
    (lit "Problem Definition",
      lit "Technical challenges and requirements for " ++ topic);
    (lit "Learning Objectives",
      lit "What you will learn about " ++ topic ++ lit " by the end of this session");
    (lit "Research Question",
      lit "Key research questions driving our study of " ++ topic);
    (lit "Background & Context",
      lit "Historical background and current state of " ++ topic);
    (lit "Literature Review",
      lit "Previous research and findings related to " ++ topic) ].

Definition generate_slide_details (topic slide_title template_type : str) : str :=
  dict_get (content_map topic) slide_title
    (lit "Detailed information about " ++ slide_title
       ++ lit " in the context of " ++ topic).

(** [TEMPLATES.get(template_type, TEMPLATES["business"])]: the default is
    evaluated first, as Python evaluates arguments before the call. *)
Definition resolve_template (template_type : str) : result (list str) :=
  (default <- dict_getitem TEMPLATES (lit "business") ;;
   Ok (dict_get TEMPLATES template_type default))%res.

Definition generate_detailed_content (topic template_type : str) (num_slides : Z)
  : result (list slide) :=
  (template <- resolve_template template_type ;;
   for_each (range (Z.min num_slides (len template))) []
     (fun slides i =>
        slide_title <- list_getitem template i ;;
        let slide_content :=
          generate_slide_details topic slide_title template_type in
        Ok (slides ++
              [ {| title := lit "Slide " ++ str_of_int (i + 1) ++ lit ": "
                              ++ slide_title;
                   content := slide_content |} ])))%res.

(** ** The object store

    Lists and dicts are objects with identity: a variable holds a reference,
    and two holders of one reference see each other's writes. *)

Definition loc := nat.

Inductive value : Type :=
| VStr (s : str)
| VRef (l : loc).

Inductive obj : Type :=
| ODict (d : dict value)
| OList (xs : list value).

Definition heap := list obj.

(** Computations on the store that may raise. *)
Definition M (A : Type) : Type := heap -> heap * result A.

Definition mret {A} (a : A) : M A := fun h => (h, Ok a).
Definition mraise {A} (e : exn) : M A := fun h => (h, Raise e).
Definition mbind {A B} (m : M A) (f : A -> M B) : M B :=
  fun h =>
    match m h with
    | (h', inl e) => (h', inl e)
    | (h', inr a) => f a h'
    end.
Definition lift {A} (r : result A) : M A := fun h => (h, r).

Declare Scope store_scope.
Delimit Scope store_scope with store.
Notation "x <- m ;; k" := (mbind m (fun x => k))
  (at level 61, m at next level, right associativity) : store_scope.
Notation "'let*' x := e 'in' k" := ((fun x => k) e)
  (at level 61, x name, e at next level, right associativity, only parsing)
  : store_scope.

(** A new object: a dict or list display. *)
Definition alloc (o : obj) : M value :=
  fun h => (h ++ [o], Ok (VRef (List.length h))).

Definition deref (l : loc) : M obj :=
  fun h => (h, match nth_error h l with
               | Some o => Ok o
               | None => Raise Unsupported
               end).

(** Replace the object at [l]: the only write. *)
Fixpoint update (h : heap) (l : loc) (o : obj) : heap :=
  match h, l with
  | [], _ => []
  | _ :: h', O => o :: h'
  | x :: h', S l' => x :: update h' l' o
  end.

Fixpoint dict_set {V} (d : dict V) (k : str) (v : V) : dict V :=
  match d with
  | [] => [(k, v)]
  | (k', v') :: d' =>
      if str_eqb k' k then (k', v) :: d' else (k', v') :: dict_set d' k v
  end.

(** The values a [for] loop over [v] visits: the items of a list, the keys of
    a dict, the characters of a string. *)
Definition iterate (v : value) : M (list value) :=
  match v with
  | VStr s => mret (map (fun c => VStr [c]) s)
  | VRef l =>
      (o <- deref l ;;
       match o with
       | OList xs => mret xs
       | ODict d => mret (map VStr (dict_keys d))
       end)%store
  end.

(** [v[k]] with a string key. *)
Definition getitem (v : value) (k : str) : M value :=
  match v with
  | VStr _ => mraise TypeError
  | VRef l =>
      (o <- deref l ;;
       match o with
       | ODict d => lift (dict_getitem d k)
       | OList _ => mraise TypeError
       end)%store
  end.

(** [v[i]] with an integer index. *)
Definition getindex (v : value) (i : Z) : M value :=
  match v with
  | VStr s => lift (c <- list_getitem s i ;; Ok (VStr [c]))%res
  | VRef l =>
      (o <- deref l ;;
       match o with
       | OList xs => lift (list_getitem xs i)
       | ODict _ => mraise KeyError
       end)%store
  end.

(** [v[k] = x] with a string key. *)
Definition setitem (v : value) (k : str) (x : value) : M unit :=
  match v with
  | VStr _ => mraise TypeError
  | VRef l =>
      (o <- deref l ;;
       match o with
       | ODict d => fun h => (update h l (ODict (dict_set d k x)), Ok tt)
       | OList _ => mraise TypeError
       end)%store
  end.

(** [f"{v}"] *)
Definition format (v : value) : M str :=
  match v with
  | VStr s => mret s
  | VRef _ => mraise Unsupported
  end.

(** [len(v)] *)
Definition len_value (v : value) : M Z :=
  match v with
  | VStr s => mret (len s)
  | VRef l =>
      (o <- deref l ;;
       match o with
       | ODict d => mret (len d)
       | OList xs => mret (len xs)
       end)%store
  end.

Fixpoint mfor_each {A S} (xs : list A) (s : S) (body : S -> A -> M S) : M S :=
  match xs with
  | [] => mret s
  | x :: xs' => (s' <- body s x ;; mfor_each xs' s' body)%store
  end.

(** ** The exporter *)

Section Exporter.

(** [str.upper()], Python's Unicode case mapping. *)
Variable str_upper : str -> str.

(** [now_isoformat] is what [datetime.datetime.now().isoformat()] returns at
    the call. *)
Definition export_to_formats (now_isoformat : str) (slides : value) (topic : str)
  : M (value * str) :=
  (presentation <- alloc (ODict [ (lit "topic", VStr topic);
                                  (lit "created", VStr now_isoformat);
                                  (lit "slides", slides) ]) ;;
   json_data <- alloc (ODict [ (lit "presentation", presentation) ]) ;;
   let* text_content := lit "PRESENTATION: " ++ str_upper topic ++ nl in
   let* text_content := text_content ++ (str_mul (lit "=") 50 ++ nl ++ nl) in
   items <- iterate slides ;;
   text_content <-
     mfor_each items text_content
       (fun text_content slide =>
          t <- getitem slide (lit "title") ;;
          t <- format t ;;
          let* text_content := text_content ++ (t ++ nl) in
          t <- getitem slide (lit "title") ;;
          n <- len_value t ;;
          let* text_content := text_content ++ (str_mul (lit "-") n ++ nl) in
          c <- getitem slide (lit "content") ;;
          c <- format c ;;
          let* text_content := text_content ++ (c ++ nl ++ nl) in
          mret text_content) ;;
   mret (json_data, text_content))%store.

End Exporter.

(** ** Reading an outline out of the store *)

(** The outline a caller sees at a reference: a list object whose items are
    dicts with string values under ["title"] and ["content"]. *)
Definition read_slide (h : heap) (v : value) : option slide :=
  match v with
  | VRef l =>
      match nth_error h l with
      | Some (ODict d) =>
          match dict_lookup d (lit "title"), dict_lookup d (lit "content") with
          | Some (VStr t), Some (VStr c) => Some {| title := t; content := c |}
          | _, _ => None
          end
      | _ => None
      end
  | VStr _ => None
  end.

Fixpoint read_slides (h : heap) (vs : list value) : option (list slide) :=
  match vs with
  | [] => Some []
  | v :: vs' =>
      match read_slide h v, read_slides h vs' with
      | Some s, Some sl => Some (s :: sl)
      | _, _ => None
      end
  end.

Definition read_outline (h : heap) (v : value) : option (list slide) :=
  match v with
  | VRef l =>
      match nth_error h l with
      | Some (OList xs) => read_slides h xs
      | _ => None
      end
  | VStr _ => None
  end.

(** [v[k]] as a read of the store [h]. *)
Definition field (h : heap) (v : value) (k : str) : option value :=
  match v with
  | VRef l =>
      match nth_error h l with
      | Some (ODict d) => dict_lookup d k
      | _ => None
      end
  | VStr _ => None
  end.

(** The objects of an outline that the generator returns: one dict per slide
    and the list that holds them. *)
Definition slide_obj (s : slide) : obj :=
  ODict [ (lit "title", VStr (title s)); (lit "content", VStr (content s)) ].

Definition store_slide (s : slide) : M value := alloc (slide_obj s).

Fixpoint store_slides (sl : list slide) : M (list value) :=
  match sl with
  | [] => mret []
  | s :: sl' =>
      (v <- store_slide s ;; vs <- store_slides sl' ;; mret (v :: vs))%store
  end.

Definition store_outline (sl : list slide) : M value :=
  (vs <- store_slides sl ;; alloc (OList vs))%store.

(** ASCII upper-casing: what [str.upper()] does on ASCII strings. *)
Definition ascii_upper (s : str) : str :=
  map (fun c => if ((97 <=? c) && (c <=? 122))%N then (c - 32)%N else c) s.

(** ** The text rendering, as the specification words it *)

Section Render.

Variable str_upper : str -> str.

Definition render_slide (s : slide) : str :=
  title s ++ nl
    ++ repeat (char "-") (List.length (title s)) ++ nl
    ++ content s ++ nl
    ++ nl.

Definition render_text (sl : list slide) (topic : str) : str :=
  lit "PRESENTATION: " ++ str_upper topic ++ nl
    ++ repeat (char "=") 50 ++ nl
    ++ nl
    ++ concat (map render_slide sl).

End Render.

(** ** The outline a title list yields, for the statements below *)

(** The title of the slide at (0-based) position [i]. *)
Definition slide_label (i : nat) (t : str) : str :=
  lit "Slide " ++ str_of_int (Z.of_nat i + 1) ++ lit ": " ++ t.

Fixpoint slides_from (topic template_type : str) (i : nat) (titles : list str)
  : list slide :=
  match titles with
  | [] => []
  | t :: titles' =>
      {| title := slide_label i t;
         content := generate_slide_details topic t template_type |}
        :: slides_from topic template_type (S i) titles'
  end.

(** A computation that leaves the store as it found it. *)
Definition readonly {A} (m : M A) : Prop := forall h, fst (m h) = h.

(** The store after a call: the two dicts of the record are new, at the end;
    this is so whether or not the loop raises. *)
Definition exported_store (h : heap) (now_isoformat : str) (slides : value)
    (topic : str) : heap :=
  h ++ [ ODict [ (lit "topic", VStr topic);
                 (lit "created", VStr now_isoformat);
                 (lit "slides", slides) ];
         ODict [ (lit "presentation", VRef (List.length h)) ] ].

(** A store for the examples: one slide, whose content has a line break, and
    the list that holds it. *)
Definition demo_slide : slide :=
  {| title := lit "Slide 1: Intro"; content := lit "Hello" ++ nl ++ lit "owls" |}.

Definition demo_store : heap :=
  [ ODict [ (lit "title", VStr (lit "Slide 1: Intro"));
            (lit "content", VStr (lit "Hello" ++ nl ++ lit "owls")) ];
    OList [ VRef 0 ] ].

(** [slides[i]['content'] = new_content], the edit the caller makes between
    generation and export. *)
Definition edit_content (slides : value) (i : Z) (new_content : str) : M unit :=
  (slide <- getindex slides i ;;
   setitem slide (lit "content") (VStr new_content))%store.

(** ** Checks on the tables *)

Fixpoint mem_str (x : str) (l : list str) : bool :=
  match l with
  | [] => false
  | y :: l' => str_eqb y x || mem_str x l'
  end.

Fixpoint distinct (l : list str) : bool :=
  match l with
  | [] => true
  | x :: l' => negb (mem_str x l') && distinct l'
  end.

(** ** Names for parts of the exporter *)

(** The body of the loop of [export_to_formats], for the lemmas on it. *)
Definition export_loop_body (text_content : str) (slide : value) : M str :=
  (t <- getitem slide (lit "title") ;;
   t <- format t ;;
   let* text_content := text_content ++ (t ++ nl) in
   t <- getitem slide (lit "title") ;;
   n <- len_value t ;;
   let* text_content := text_content ++ (str_mul (lit "-") n ++ nl) in
   c <- getitem slide (lit "content") ;;
   c <- format c ;;
   let* text_content := text_content ++ (c ++ nl ++ nl) in
   mret text_content)%store.

(** The text before the first slide. *)
Definition export_header (str_upper : str -> str) (topic : str) : str :=
  (lit "PRESENTATION: " ++ str_upper topic ++ nl)
    ++ (str_mul (lit "=") 50 ++ nl ++ nl).

(** Stores for the examples of failure: a slide dict without ["content"],
    and a list whose item is a string. *)
Definition demo_store_no_content : heap :=
  [ ODict [ (lit "title", VStr (lit "Slide 1: Intro")) ];
    OList [ VRef 0 ] ].

Definition demo_store_strings : heap :=
  [ OList [ VStr (lit "Slide 1: Intro") ] ].

(** ** The caller: what [main] does with the slides

    Only the path of the data through [main] is modelled: the guard on the
    button and the topic, the generation, the edit loop of the second tab,
    the export and the two file names. The calls that only draw the page,
    and the first tab, which only displays the slides, are left out; what
    the widgets return is an argument. *)

(** [enumerate(xs)] *)
Definition enumerate {A} (xs : list A) : list (Z * A) :=
  combine (range (len xs)) xs.

(** [s.replace(old, new)] where [old] and [new] are one character each. *)
Definition str_replace_char (old new : codepoint) (s : str) : str :=
  map (fun c => if N.eqb c old then new else c) s.

(** The truth value of a string in a condition: not empty. *)
Definition truthy (s : str) : bool :=
  match s with
  | [] => false
  | _ :: _ => true
  end.

(** What [main] hands to the page on one run. *)
Inductive main_result : Type :=
| Generated (success : str) (json_data : value) (json_file_name : str)
    (text_content : str) (text_file_name : str)
| TopicError (message : str)
| NoAction.

Section Caller.

Variable str_upper : str -> str.

(** [st.text_area(label, value=..., key=...)]: the text the widget holds. *)
Variable text_area : str -> str -> str -> str.

(** The loop of the second tab. *)
Definition edit_slides (slides : value) : M unit :=
  (items <- iterate slides ;;
   mfor_each (enumerate items) tt
     (fun _ '(i, slide) =>
        t <- getitem slide (lit "title") ;;
        _ <- format t ;;
        value <- getitem slide (lit "content") ;;
        value <- format value ;;
        let* new_content :=
          text_area (lit "Content for slide " ++ str_of_int (i + 1) ++ lit ":")
            value (lit "slide_" ++ str_of_int i) in
        edit_content slides i new_content))%store.

Definition main_data_path (generate_btn : bool) (topic template_type : str)
    (num_slides : Z) (now_isoformat : str) : M main_result :=
  if generate_btn && truthy topic then
    (sl <- lift (generate_detailed_content topic template_type num_slides) ;;
     slides <- store_outline sl ;;
     (* 9989 is U+2705, the check mark the message starts with *)
     let* success :=
       [9989%N] ++ lit " Generated " ++ str_of_int (len sl)
         ++ lit " slides for '" ++ topic ++ lit "'" in
     _ <- edit_slides slides ;;
     r <- export_to_formats str_upper now_isoformat slides topic ;;
     mret (Generated success (fst r)
             (str_replace_char (char " ") (char "_") topic
                ++ lit "_presentation.json")
             (snd r)
             (str_replace_char (char " ") (char "_") topic
                ++ lit "_presentation.txt")))%store
  else if generate_btn && negb (truthy topic) then
    (* 9888, 65039 are U+26A0 U+FE0F, the warning sign of the message *)
    mret (TopicError
            ([9888%N; 65039%N]
               ++ lit " Please enter a topic to generate your presentation!"))
  else mret NoAction.

(** The outline after the edit loop: each content is what the widget of its
    slide holds. *)
Fixpoint edited_from (i : nat) (sl : list slide) : list slide :=
  match sl with
  | [] => []
  | s :: sl' =>
      {| title := title s;
         content :=
           text_area
             (lit "Content for slide " ++ str_of_int (Z.of_nat i + 1) ++ lit ":")
             (content s) (lit "slide_" ++ str_of_int (Z.of_nat i)) |}
        :: edited_from (S i) sl'
  end.

End Caller.

(** An outline with the content of the slide at position [i] replaced. *)
Fixpoint replace_content (sl : list slide) (i : nat) (c : str) : list slide :=
  match sl, i with
  | [], _ => []
  | s :: sl', O => {| title := title s; content := c |} :: sl'
  | s :: sl', S i' => s :: replace_content sl' i' c
  end.

(** The body of the loop of [edit_slides], for the lemmas on it. *)
Definition edit_loop_body (text_area : str -> str -> str -> str)
    (slides : value) (_ : unit) (p : Z * value) : M unit :=
  (let '(i, slide) := p in
   t <- getitem slide (lit "title") ;;
   _ <- format t ;;
   value <- getitem slide (lit "content") ;;
   value <- format value ;;
   let* new_content :=
     text_area (lit "Content for slide " ++ str_of_int (i + 1) ++ lit ":")
       value (lit "slide_" ++ str_of_int i) in
   edit_content slides i new_content)%store.

(** A widget for the examples: the user appends an exclamation mark. *)
Definition demo_text_area (label value key : str) : str := value ++ lit "!".

(** * Properties *)

(** ** Strings and dicts *)

Lemma str_eqb_eq (a b : str) : str_eqb a b = true <-> a = b.
Proof.
  revert b; induction a as [|x a IH]; intros [|y b]; simpl;
    try (split; [discriminate | congruence]); try tauto.
  rewrite andb_true_iff, N.eqb_eq, IH.
  split; [intros [-> ->]; reflexivity | intros [= -> ->]; auto].
Qed.

Lemma str_eqb_refl (a : str) : str_eqb a a = true.
Proof. now apply str_eqb_eq. Qed.

Lemma dict_lookup_None {V} (d : dict V) (k : str) :
  ~ In k (dict_keys d) -> dict_lookup d k = None.
Proof.
  induction d as [|[k' v] d IH]; simpl; intros Hk; [reflexivity|].
  destruct (str_eqb k' k) eqn:E.
  - apply str_eqb_eq in E. tauto.
  - apply IH. tauto.
Qed.

Lemma dict_lookup_In {V} (d : dict V) (k : str) :
  In k (dict_keys d) -> exists v, dict_lookup d k = Some v /\ In (k, v) d.
Proof.
  induction d as [|[k' v] d IH]; simpl; intros Hk; [contradiction|].
  destruct (str_eqb k' k) eqn:E.
  - apply str_eqb_eq in E; subst. eauto.
  - destruct Hk as [->|Hk]; [rewrite str_eqb_refl in E; discriminate|].
    destruct (IH Hk) as (w & Hw & Hin). eauto.
Qed.

(** The keys of the two dict displays are distinct, so the first entry found
    for a key is the entry of the dict. *)
Lemma TEMPLATES_keys_distinct : NoDup (dict_keys TEMPLATES).
Proof.
  repeat (constructor;
          [ intros H; vm_compute in H;
            repeat (destruct H as [H|H]; [discriminate H|]); exact H | ]).
  constructor.
Qed.

Lemma content_map_keys_distinct (topic : str) : NoDup (dict_keys (content_map topic)).
Proof.
  repeat (constructor;
          [ intros H; vm_compute in H;
            repeat (destruct H as [H|H]; [discriminate H|]); exact H | ]).
  constructor.
Qed.

(** ** Indexing and the loop of the generator *)

Lemma len_nonneg {A} (l : list A) : (0 <= len l)%Z.
Proof. unfold len; lia. Qed.

Lemma list_getitem_nth {A} (l : list A) (i : nat) (a : A) :
  nth_error l i = Some a -> list_getitem l (Z.of_nat i) = Ok a.
Proof.
  intros H. unfold list_getitem, len.
  assert (i < List.length l)%nat by (apply nth_error_Some; congruence).
  destruct (Z.ltb_spec (Z.of_nat i) 0); [lia|].
  destruct (Z.leb_spec 0 (Z.of_nat i)); [|lia].
  destruct (Z.ltb_spec (Z.of_nat i) (Z.of_nat (List.length l))); [|lia].
  simpl. now rewrite Nat2Z.id, H.
Qed.

Lemma skipn_nth_cons {A} (l : list A) (i : nat) (a : A) :
  nth_error l i = Some a -> skipn i l = a :: skipn (S i) l.
Proof.
  revert l; induction i as [|i IH]; intros [|x l]; simpl; try discriminate.
  - now intros [= ->].
  - intros H. now apply IH.
Qed.

(** The loop from index [a] for [m] rounds appends the slides of the titles
    at [a], ..., [a + m - 1], and raises nothing while these are in range. *)
Lemma generator_loop (topic template_type : str) (template : list str)
    (m a : nat) (acc : list slide) :
  (a + m <= List.length template)%nat ->
  for_each (map Z.of_nat (seq a m)) acc
    (fun slides i =>
       slide_title <- list_getitem template i ;;
       let slide_content :=
         generate_slide_details topic slide_title template_type in
       Ok (slides ++
             [ {| title := lit "Slide " ++ str_of_int (i + 1) ++ lit ": "
                             ++ slide_title;
                  content := slide_content |} ]))%res
  = Ok (acc ++ slides_from topic template_type a (firstn m (skipn a template))).
Proof.
  revert a acc; induction m as [|m IH]; intros a acc Hle.
  - simpl. now rewrite app_nil_r.
  - destruct (nth_error template a) as [t|] eqn:Ht;
      [|apply nth_error_None in Ht; lia].
    cbn [seq map for_each].
    rewrite (list_getitem_nth _ _ _ Ht). cbn [rbind Ok].
    rewrite IH by lia.
    rewrite (skipn_nth_cons _ _ _ Ht). cbn [firstn slides_from].
    now rewrite <- app_assoc.
Qed.

Lemma dict_lookup_Some_In {V} (d : dict V) (k : str) (v : V) :
  dict_lookup d k = Some v -> In (k, v) d.
Proof.
  induction d as [|[k' v'] d IH]; simpl; [discriminate|].
  destruct (str_eqb k' k) eqn:E; [|auto].
  apply str_eqb_eq in E; subst. intros [= ->]. now left.
Qed.

Lemma TEMPLATES_lengths : Forall (fun kv => len (snd kv) = 10%Z) TEMPLATES.
Proof. repeat constructor. Qed.

Lemma TEMPLATES_business :
  exists titles, dict_lookup TEMPLATES (lit "business") = Some titles.
Proof. eexists. reflexivity. Qed.

Lemma resolve_template_get (c : str) :
  exists default,
    dict_lookup TEMPLATES (lit "business") = Some default
    /\ resolve_template c = Ok (dict_get TEMPLATES c default).
Proof.
  destruct TEMPLATES_business as (default & Hd). exists default.
  split; [assumption|].
  unfold resolve_template, dict_getitem. now rewrite Hd.
Qed.

Lemma resolve_template_total (c : str) :
  exists template, resolve_template c = Ok template /\ len template = 10%Z.
Proof.
  destruct (resolve_template_get c) as (default & Hd & ->).
  eexists; split; [reflexivity|].
  pose proof TEMPLATES_lengths as HF. rewrite Forall_forall in HF.
  unfold dict_get. destruct (dict_lookup TEMPLATES c) as [titles|] eqn:E.
  - apply (HF _ (dict_lookup_Some_In _ _ _ E)).
  - apply (HF _ (dict_lookup_Some_In _ _ _ Hd)).
Qed.

Lemma resolve_template_known (c : str) (titles : list str) :
  dict_lookup TEMPLATES c = Some titles -> resolve_template c = Ok titles.
Proof.
  intros H. destruct (resolve_template_get c) as (default & _ & ->).
  unfold dict_get. now rewrite H.
Qed.

Lemma resolve_template_unknown (c : str) :
  ~ In c (dict_keys TEMPLATES) ->
  resolve_template c = resolve_template (lit "business").
Proof.
  intros H. destruct (resolve_template_get c) as (default & Hd & ->).
  rewrite (resolve_template_known _ _ Hd).
  unfold dict_get. now rewrite (dict_lookup_None _ _ H).
Qed.

(** The generator never raises: it returns the slides of the first
    [num_slides] titles of the resolved template (all of them when
    [num_slides] exceeds their number, none when it is zero or negative). *)
Lemma generate_detailed_content_eq (topic c : str) (k : Z) (template : list str) :
  resolve_template c = Ok template ->
  generate_detailed_content topic c k
  = Ok (slides_from topic c 0 (firstn (Z.to_nat k) template)).
Proof.
  intros Hr. unfold generate_detailed_content. rewrite Hr. simpl.
  unfold range.
  rewrite generator_loop.
  - simpl. f_equal. f_equal. unfold len.
    destruct (Z.le_ge_cases k (Z.of_nat (List.length template))).
    + now rewrite Z.min_l.
    + rewrite Z.min_r, Nat2Z.id by lia.
      rewrite !firstn_all2; auto; lia.
  - unfold len. lia.
Qed.

Lemma slides_from_length (topic c : str) (i : nat) (titles : list str) :
  List.length (slides_from topic c i titles) = List.length titles.
Proof. revert i; induction titles; simpl; auto. Qed.

Lemma slides_from_category (topic c1 c2 : str) (i : nat) (titles : list str) :
  slides_from topic c1 i titles = slides_from topic c2 i titles.
Proof. revert i; induction titles; simpl; intros; [|rewrite IHtitles]; auto. Qed.

Lemma slides_from_nth (topic c : str) (titles : list str) (a i : nat) (s : slide) :
  nth_error (slides_from topic c a titles) i = Some s ->
  exists t, nth_error titles i = Some t
            /\ s = {| title := slide_label (a + i) t;
                      content := generate_slide_details topic t c |}.
Proof.
  revert a i; induction titles as [|t titles IH]; intros a [|i]; simpl;
    try discriminate.
  - intros [= <-]. exists t. now rewrite Nat.add_0_r.
  - intros H. destruct (IH _ _ H) as (t' & Ht' & ->).
    exists t'. split; [assumption|]. do 2 f_equal. lia.
Qed.

Lemma nth_error_firstn_Some {A} (l : list A) (n i : nat) (a : A) :
  nth_error (firstn n l) i = Some a -> nth_error l i = Some a.
Proof.
  revert l i; induction n as [|n IH]; intros [|x l] [|i]; simpl;
    try discriminate; auto.
Qed.

(** ** The generator *)

(** C1 (as amended). For every topic, every known category [C] with title
    list [titles] and every integer [k], the generator raises nothing and
    returns an outline of length [max 0 (min k (len titles))]: [min k (len
    titles)] when [k] is not negative, and the empty outline when [k] is zero
    or negative. *)
Theorem generate_length (topic C : str) (k : Z) (titles : list str) :
  dict_lookup TEMPLATES C = Some titles ->
  exists sl,
    generate_detailed_content topic C k = Ok sl
    /\ len sl = Z.max 0 (Z.min k (len titles))
    /\ (0 <= k -> len sl = Z.min k (len titles))%Z
    /\ (k <= 0 -> sl = [])%Z.
Proof.
  intros HC. apply resolve_template_known in HC.
  rewrite (generate_detailed_content_eq _ _ _ _ HC).
  eexists; split; [reflexivity|].
  assert (HL : len (slides_from topic C 0 (firstn (Z.to_nat k) titles))
               = Z.max 0 (Z.min k (len titles))).
  { unfold len. rewrite slides_from_length, length_firstn. lia. }
  split; [exact HL|]. split.
  - intros Hk. rewrite HL. pose proof (len_nonneg titles). lia.
  - intros Hk. replace (Z.to_nat k) with 0%nat by lia. reflexivity.
Qed.

Lemma generate_length_witness :
  dict_lookup TEMPLATES (lit "technical")
  = Some [ lit "Introduction & Overview"; lit "Problem Definition";
           lit "Technical Requirements"; lit "Architecture & Design";
           lit "Implementation Details"; lit "Testing & Validation";
           lit "Performance Analysis"; lit "Security Considerations";
           lit "Future Enhancements"; lit "Conclusion" ]
  /\ exists sl,
       generate_detailed_content (lit "X") (lit "technical") 12 = Ok sl
       /\ len sl = 10%Z.
Proof.
  split; [reflexivity|].
  destruct (generate_length (lit "X") (lit "technical") 12 _ eq_refl)
    as (sl & Hg & Hl & _).
  exists sl. split; [exact Hg | exact Hl].
Defined.

(** C1, as stated, fails for a negative count: the outline of
    [generate_detailed_content("X", "technical", -1)] is empty, of length 0,
    while [min(-1, 10)] is [-1]. *)
Lemma generate_length_negative_count :
  generate_detailed_content (lit "X") (lit "technical") (-1) = Ok []
  /\ option_map len (dict_lookup TEMPLATES (lit "technical")) = Some 10%Z
  /\ len (@nil slide) <> Z.min (-1) 10.
Proof. repeat split. discriminate. Qed.

(** C2. In every generated outline the slide at position [i] (counted from
    1, with no gaps: every position of the outline is covered) has the title
    ["Slide {i}: {t}"], where [t] is the title at the same position of the
    resolved template. Positions are 0-based here, so the number is [i + 1]. *)
Theorem generate_titles (topic c : str) (k : Z) (template : list str)
    (sl : list slide) (i : nat) (s : slide) :
  resolve_template c = Ok template ->
  generate_detailed_content topic c k = Ok sl ->
  nth_error sl i = Some s ->
  exists t,
    nth_error template i = Some t
    /\ title s = lit "Slide " ++ str_of_int (Z.of_nat i + 1) ++ lit ": " ++ t.
Proof.
  intros Hr Hg Hi.
  rewrite (generate_detailed_content_eq _ _ _ _ Hr) in Hg.
  injection Hg as <-.
  destruct (slides_from_nth _ _ _ _ _ _ Hi) as (t & Ht & ->).
  exists t. split; [|reflexivity].
  eapply nth_error_firstn_Some; eassumption.
Qed.

Lemma generate_titles_witness :
  exists t,
    nth_error [ lit "Research Question"; lit "Literature Review";
                lit "Methodology"; lit "Data Collection";
                lit "Results & Analysis"; lit "Discussion";
                lit "Limitations"; lit "Implications";
                lit "Future Research"; lit "Conclusions" ] 2 = Some t
    /\ lit "Slide 3: Methodology"
       = lit "Slide " ++ str_of_int (Z.of_nat 2 + 1) ++ lit ": " ++ t.
Proof.
  apply (generate_titles (lit "Owls") (lit "research") 3 _
           [ {| title := lit "Slide 1: Research Question";
                content := lit "Key research questions driving our study of Owls" |};
             {| title := lit "Slide 2: Literature Review";
                content := lit "Previous research and findings related to Owls" |};
             {| title := lit "Slide 3: Methodology";
                content := lit "Detailed information about Methodology in the context of Owls" |} ]
           2
           {| title := lit "Slide 3: Methodology";
              content := lit "Detailed information about Methodology in the context of Owls" |});
    reflexivity.
Defined.

(** C3. For a title [T] that is not a key of the canned-content mapping and
    any topic [S] and category [c], the content is exactly
    ["Detailed information about {T} in the context of {S}"]. *)
Theorem generate_slide_details_fallback (S T c : str) :
  ~ In T (dict_keys (content_map S)) ->
  generate_slide_details S T c
  = lit "Detailed information about " ++ T ++ lit " in the context of " ++ S.
Proof.
  intros H. unfold generate_slide_details, dict_get.
  now rewrite (dict_lookup_None _ _ H).
Qed.

Lemma generate_slide_details_fallback_witness :
  generate_slide_details (lit "Owls") (lit "Conclusion") (lit "technical")
  = lit "Detailed information about " ++ lit "Conclusion"
      ++ lit " in the context of " ++ lit "Owls".
Proof.
  apply generate_slide_details_fallback.
  intros H. vm_compute in H.
  repeat (destruct H as [H|H]; [discriminate H|]). exact H.
Defined.

(** Every canned sentence embeds the topic. *)
Lemma content_map_embeds_topic (S : str) :
  Forall (fun kv => substring S (snd kv)) (content_map S).
Proof.
  unfold content_map, substring.
  repeat constructor; cbn [snd];
    first [ eexists _, _; reflexivity
          | eexists _, []; rewrite app_nil_r; reflexivity ].
Qed.

(** C4. For a title [T] that is a key of the canned-content mapping and any
    topic [S], the content contains [S] itself, unchanged, as a substring. *)
Theorem generate_slide_details_contains_topic (S T c : str) :
  In T (dict_keys (content_map S)) ->
  substring S (generate_slide_details S T c).
Proof.
  intros H. destruct (dict_lookup_In _ _ H) as (v & Hv & Hin).
  unfold generate_slide_details, dict_get. rewrite Hv.
  pose proof (content_map_embeds_topic S) as HF.
  rewrite Forall_forall in HF. exact (HF _ Hin).
Qed.

Lemma generate_slide_details_contains_topic_witness :
  substring (lit "oWLs")
    (generate_slide_details (lit "oWLs") (lit "Market Analysis") (lit "research")).
Proof.
  apply generate_slide_details_contains_topic.
  vm_compute. do 2 right. left. reflexivity.
Defined.

(** C5. For a category that is none of the four known keys, the template
    resolves to the title list of ["business"], and the generator raises
    nothing: it returns the outline it returns for ["business"]. *)
Theorem generate_unknown_category (topic c : str) (k : Z) :
  ~ In c [lit "business"; lit "technical"; lit "educational"; lit "research"] ->
  exists titles sl,
    dict_lookup TEMPLATES (lit "business") = Some titles
    /\ resolve_template c = Ok titles
    /\ generate_detailed_content topic c k = Ok sl
    /\ generate_detailed_content topic (lit "business") k = Ok sl
    /\ sl = slides_from topic c 0 (firstn (Z.to_nat k) titles).
Proof.
  intros Hc.
  destruct TEMPLATES_business as (titles & Ht).
  pose proof (resolve_template_known _ _ Ht) as Hb.
  assert (Hr : resolve_template c = Ok titles)
    by (rewrite resolve_template_unknown; assumption).
  exists titles, (slides_from topic c 0 (firstn (Z.to_nat k) titles)).
  repeat split; try assumption.
  - apply generate_detailed_content_eq, Hr.
  - rewrite (generate_detailed_content_eq _ _ _ _ Hb).
    f_equal. apply slides_from_category.
Qed.

Lemma generate_unknown_category_witness :
  exists titles sl,
    dict_lookup TEMPLATES (lit "business") = Some titles
    /\ resolve_template (lit "unknown_category") = Ok titles
    /\ generate_detailed_content (lit "Quantum Computing")
         (lit "unknown_category") 2 = Ok sl
    /\ generate_detailed_content (lit "Quantum Computing") (lit "business") 2
       = Ok sl
    /\ sl = slides_from (lit "Quantum Computing") (lit "unknown_category") 0
              (firstn (Z.to_nat 2) titles).
Proof.
  apply generate_unknown_category.
  intros H. vm_compute in H.
  repeat (destruct H as [H|H]; [discriminate H|]). exact H.
Defined.

(** C8. The content of a slide depends on the topic and the title only: two
    calls that differ in the category alone return the same string. *)
Theorem generate_slide_details_category_agnostic (S T c1 c2 : str) :
  generate_slide_details S T c1 = generate_slide_details S T c2.
Proof. reflexivity. Qed.

(** C9. [generate_detailed_content("Machine Learning", "business", 3)]
    returns exactly three slides, titled ["Slide 1: Executive Summary"],
    ["Slide 2: Problem Statement"] and ["Slide 3: Market Analysis"], the
    first with the content ["Brief overview of Machine Learning and its key
    benefits for stakeholders"]. *)
Theorem generate_machine_learning_business_3 :
  exists c2 c3,
    generate_detailed_content (lit "Machine Learning") (lit "business") 3
    = Ok [ {| title := lit "Slide 1: Executive Summary";
              content := lit "Brief overview of Machine Learning and its key benefits for stakeholders" |};
           {| title := lit "Slide 2: Problem Statement"; content := c2 |};
           {| title := lit "Slide 3: Market Analysis"; content := c3 |} ].
Proof. do 2 eexists. vm_compute. reflexivity. Qed.

(** ** The store *)

Lemma mbind_ok {A B} (m : M A) (f : A -> M B) (h h' : heap) (a : A) :
  m h = (h', Ok a) -> mbind m f h = f a h'.
Proof. intros H. unfold mbind. now rewrite H. Qed.

Lemma nth_error_grow (h h' : heap) (l : loc) (o : obj) :
  nth_error h l = Some o -> nth_error (h ++ h') l = Some o.
Proof.
  intros H. rewrite nth_error_app1; [assumption|].
  apply nth_error_Some. congruence.
Qed.

Lemma field_grow (h h' : heap) (v : value) (k : str) (x : value) :
  field h v k = Some x -> field (h ++ h') v k = Some x.
Proof.
  destruct v as [s|l]; simpl; [discriminate|].
  destruct (nth_error h l) as [o|] eqn:E; [|discriminate].
  now rewrite (nth_error_grow _ h' _ _ E).
Qed.

Lemma read_slide_grow (h h' : heap) (v : value) (s : slide) :
  read_slide h v = Some s -> read_slide (h ++ h') v = Some s.
Proof.
  destruct v as [x|l]; simpl; [discriminate|].
  destruct (nth_error h l) as [o|] eqn:E; [|discriminate].
  now rewrite (nth_error_grow _ h' _ _ E).
Qed.

Lemma read_slides_grow (h h' : heap) (vs : list value) (sl : list slide) :
  read_slides h vs = Some sl -> read_slides (h ++ h') vs = Some sl.
Proof.
  revert sl; induction vs as [|v vs IH]; intros sl; simpl; [auto|].
  destruct (read_slide h v) as [s|] eqn:Es; [|discriminate].
  destruct (read_slides h vs) as [sl'|]; [|discriminate].
  intros [= <-].
  now rewrite (read_slide_grow _ h' _ _ Es), (IH _ eq_refl).
Qed.

(** Allocation never disturbs an outline that is already in the store. *)
Lemma read_outline_grow (h h' : heap) (v : value) (sl : list slide) :
  read_outline h v = Some sl -> read_outline (h ++ h') v = Some sl.
Proof.
  destruct v as [x|l]; simpl; [discriminate|].
  destruct (nth_error h l) as [[d|xs]|] eqn:E; try discriminate.
  rewrite (nth_error_grow _ h' _ _ E). apply read_slides_grow.
Qed.

Lemma read_slide_fields (h : heap) (v : value) (s : slide) :
  read_slide h v = Some s ->
  field h v (lit "title") = Some (VStr (title s))
  /\ field h v (lit "content") = Some (VStr (content s)).
Proof.
  destruct v as [x|l]; simpl; [discriminate|].
  destruct (nth_error h l) as [[d|xs]|]; try discriminate.
  destruct (dict_lookup d (lit "title")) as [[t|]|]; try discriminate.
  destruct (dict_lookup d (lit "content")) as [[c|]|]; try discriminate.
  intros [= <-]. split; reflexivity.
Qed.

Lemma getitem_field (h : heap) (v : value) (k : str) (x : value) :
  field h v k = Some x -> getitem v k h = (h, Ok x).
Proof.
  destruct v as [s|l]; simpl; [discriminate|].
  unfold mbind, deref, lift, dict_getitem.
  destruct (nth_error h l) as [[d|xs]|]; try discriminate.
  simpl. now intros ->.
Qed.

Lemma iterate_outline (h : heap) (v : value) (sl : list slide) :
  read_outline h v = Some sl ->
  exists items, iterate v h = (h, Ok items) /\ read_slides h items = Some sl.
Proof.
  destruct v as [s|l]; simpl; [discriminate|].
  unfold mbind, deref.
  destruct (nth_error h l) as [[d|xs]|]; try discriminate.
  intros H. exists xs. split; [reflexivity | assumption].
Qed.

Lemma str_mul_char (c : codepoint) (n : nat) :
  str_mul [c] (Z.of_nat n) = repeat c n.
Proof.
  unfold str_mul. rewrite Nat2Z.id.
  induction n as [|n IH]; simpl; [reflexivity | now rewrite IH].
Qed.

Lemma readonly_ret {A} (a : A) : readonly (mret a).
Proof. intros h. reflexivity. Qed.

Lemma readonly_raise {A} (e : exn) : readonly (@mraise A e).
Proof. intros h. reflexivity. Qed.

Lemma readonly_lift {A} (r : result A) : readonly (lift r).
Proof. intros h. reflexivity. Qed.

Lemma readonly_deref (l : loc) : readonly (deref l).
Proof. intros h. reflexivity. Qed.

Lemma readonly_bind {A B} (m : M A) (f : A -> M B) :
  readonly m -> (forall a, readonly (f a)) -> readonly (mbind m f).
Proof.
  intros Hm Hf h. unfold mbind. specialize (Hm h).
  destruct (m h) as [h' [e|a]]; simpl in *; subst; [reflexivity | apply Hf].
Qed.

Lemma readonly_iterate (v : value) : readonly (iterate v).
Proof.
  destruct v as [s|l]; [apply readonly_ret|].
  apply readonly_bind; [apply readonly_deref|].
  intros [d|xs]; apply readonly_ret.
Qed.

Lemma readonly_getitem (v : value) (k : str) : readonly (getitem v k).
Proof.
  destruct v as [s|l]; [apply readonly_raise|].
  apply readonly_bind; [apply readonly_deref|].
  intros [d|xs]; [apply readonly_lift | apply readonly_raise].
Qed.

Lemma readonly_format (v : value) : readonly (format v).
Proof. destruct v; [apply readonly_ret | apply readonly_raise]. Qed.

Lemma readonly_len_value (v : value) : readonly (len_value v).
Proof.
  destruct v as [s|l]; [apply readonly_ret|].
  apply readonly_bind; [apply readonly_deref|].
  intros [d|xs]; apply readonly_ret.
Qed.

Lemma readonly_for_each {A S} (xs : list A) (s : S) (body : S -> A -> M S) :
  (forall s x, readonly (body s x)) -> readonly (mfor_each xs s body).
Proof.
  intros Hb. revert s; induction xs as [|x xs IH]; intros s; simpl.
  - apply readonly_ret.
  - apply readonly_bind; [apply Hb | intros; apply IH].
Qed.

(** ** The exporter *)

Section ExportProperties.

Variable str_upper : str -> str.

(** The loop over the slides appends one block per slide and raises nothing
    when the items are slides. *)
Lemma export_loop (h : heap) (items : list value) (sl : list slide) (acc : str) :
  read_slides h items = Some sl ->
  mfor_each items acc
    (fun text_content slide =>
       t <- getitem slide (lit "title") ;;
       t <- format t ;;
       let* text_content := text_content ++ (t ++ nl) in
       t <- getitem slide (lit "title") ;;
       n <- len_value t ;;
       let* text_content := text_content ++ (str_mul (lit "-") n ++ nl) in
       c <- getitem slide (lit "content") ;;
       c <- format c ;;
       let* text_content := text_content ++ (c ++ nl ++ nl) in
       mret text_content)%store h
  = (h, Ok (acc ++ concat (map render_slide sl))).
Proof.
  revert sl acc; induction items as [|v items IH]; intros sl acc;
    cbn [mfor_each read_slides].
  - intros [= <-]. unfold mret. cbn [map concat]. now rewrite app_nil_r.
  - destruct (read_slide h v) as [s|] eqn:Es; [|discriminate].
    destruct (read_slides h items) as [sl'|]; [|discriminate].
    intros [= <-].
    destruct (read_slide_fields _ _ _ Es) as [Ht Hc].
    apply getitem_field in Ht, Hc.
    unfold mbind at 1. unfold mbind at 1. rewrite Ht.
    unfold mbind at 1. cbn [format mret Ok].
    unfold mbind at 1. rewrite Ht.
    unfold mbind at 1. cbn [len_value mret Ok].
    unfold mbind at 1. rewrite Hc.
    unfold mbind at 1. cbn [format mret Ok].
    rewrite (IH _ _ eq_refl). f_equal. f_equal.
    cbn [map concat]. unfold render_slide, len.
    change (lit "-") with [char "-"]. rewrite str_mul_char.
    now rewrite <- !app_assoc.
Qed.

Lemma export_to_formats_store (h : heap) (now_isoformat : str) (slides : value)
    (topic : str) :
  fst (export_to_formats str_upper now_isoformat slides topic h)
  = exported_store h now_isoformat slides topic.
Proof.
  unfold export_to_formats, exported_store.
  unfold mbind at 1. unfold alloc at 1.
  unfold mbind at 1. unfold alloc at 1. cbv beta iota. cbn [Ok].
  cbv beta iota.
  match goal with
  | |- fst (mbind ?m ?f ?h') = _ =>
      assert (R : readonly (mbind m f)); [|rewrite R]
  end.
  - apply readonly_bind; [apply readonly_iterate|]. intros items.
    apply readonly_bind; [|intros; apply readonly_ret].
    apply readonly_for_each. intros text slide.
    repeat first [ apply readonly_ret
                 | apply readonly_getitem
                 | apply readonly_format
                 | apply readonly_len_value
                 | apply readonly_bind; [|intro] ].
  - now rewrite <- app_assoc.
Qed.

(** On an outline, the call raises nothing; it returns a reference to the
    new record and the text the specification describes. *)
Lemma export_to_formats_run (h : heap) (now_isoformat : str) (slides : value)
    (topic : str) (sl : list slide) :
  read_outline h slides = Some sl ->
  export_to_formats str_upper now_isoformat slides topic h
  = (exported_store h now_isoformat slides topic,
     Ok (VRef (S (List.length h)), render_text str_upper sl topic)).
Proof.
  intros Hsl. unfold export_to_formats, exported_store.
  unfold mbind at 1. unfold alloc at 1.
  unfold mbind at 1. unfold alloc at 1. cbv beta iota. cbn [Ok].
  cbv beta iota.
  rewrite <- (app_assoc h [_] [_]). cbn [app].
  match goal with
  | |- context [?h0 ++ [?a; ?b]] => set (h' := h0 ++ [a; b])
  end.
  apply (read_outline_grow h (skipn (List.length h) h')) in Hsl.
  replace (h ++ skipn (List.length h) h') with h' in Hsl
    by (unfold h'; now rewrite skipn_app, skipn_all, Nat.sub_diag).
  destruct (iterate_outline _ _ _ Hsl) as (items & Hit & Hitems).
  unfold mbind at 1. rewrite Hit. cbn [Ok].
  unfold mbind at 1. rewrite (export_loop _ _ _ _ Hitems). cbn [Ok].
  unfold mret. rewrite length_app, Nat.add_1_r.
  do 3 f_equal. unfold render_text.
  change (lit "=") with [char "="].
  change 50%Z with (Z.of_nat 50). rewrite str_mul_char.
  now rewrite <- !app_assoc.
Qed.

(** C6. For every outline and topic the text is: the line ["PRESENTATION: "]
    followed by the upper-cased topic, a line of 50 ['='], a blank line, and
    then for each slide in order its title line, a line of ['-'] as long as
    the title, the content as it is, and a blank line. *)
Theorem export_text (h : heap) (now_isoformat : str) (slides : value)
    (topic : str) (sl : list slide) :
  read_outline h slides = Some sl ->
  exists json_data,
    snd (export_to_formats str_upper now_isoformat slides topic h)
    = Ok (json_data,
          lit "PRESENTATION: " ++ str_upper topic ++ nl
            ++ repeat (char "=") 50 ++ nl
            ++ nl
            ++ concat (map (fun s =>
                              title s ++ nl
                                ++ repeat (char "-") (List.length (title s)) ++ nl
                                ++ content s ++ nl
                                ++ nl) sl)).
Proof.
  intros H. rewrite (export_to_formats_run _ _ _ _ _ H).
  eexists. reflexivity.
Qed.

(** C7. For every outline and topic, the record returned holds under
    ["presentation"] a dict whose ["topic"] is the topic given and whose
    ["slides"] is the list given (the same object), which reads back as the
    input outline, slide for slide. *)
Theorem export_record (h : heap) (now_isoformat : str) (slides : value)
    (topic : str) (sl : list slide) :
  read_outline h slides = Some sl ->
  exists h' json_data text_content presentation,
    export_to_formats str_upper now_isoformat slides topic h
    = (h', Ok (json_data, text_content))
    /\ field h' json_data (lit "presentation") = Some presentation
    /\ field h' presentation (lit "topic") = Some (VStr topic)
    /\ field h' presentation (lit "slides") = Some slides
    /\ read_outline h' slides = Some sl.
Proof.
  intros H. rewrite (export_to_formats_run _ _ _ _ _ H).
  do 3 eexists. exists (VRef (List.length h)).
  split; [reflexivity|].
  unfold exported_store, field.
  rewrite !nth_error_app2 by lia.
  rewrite Nat.sub_diag.
  replace (S (List.length h) - List.length h)%nat with 1%nat by lia.
  cbn [nth_error].
  repeat split; try reflexivity.
  now apply read_outline_grow.
Qed.

(** C10. For every slide list and topic, the call leaves the list as it was:
    the outline read at the reference after the call is the outline read
    before it (same length, same titles and contents), and so is every object
    the store held before the call. *)
Theorem export_leaves_slides (h : heap) (now_isoformat : str) (slides : value)
    (topic : str) (sl : list slide) :
  read_outline h slides = Some sl ->
  read_outline (fst (export_to_formats str_upper now_isoformat slides topic h))
    slides = Some sl
  /\ forall l o,
       nth_error h l = Some o ->
       nth_error (fst (export_to_formats str_upper now_isoformat slides topic h)) l
       = Some o.
Proof.
  intros H. rewrite export_to_formats_store. unfold exported_store. split.
  - now apply read_outline_grow.
  - intros l o Hl. now apply nth_error_grow.
Qed.

End ExportProperties.

Lemma export_text_witness :
  read_outline demo_store (VRef 1) = Some [demo_slide]
  /\ exists json_data,
       snd (export_to_formats ascii_upper (lit "2024-05-01T10:00:00")
              (VRef 1) (lit "Barn owls") demo_store)
       = Ok (json_data,
             lit "PRESENTATION: BARN OWLS" ++ nl
               ++ lit "==================================================" ++ nl
               ++ nl
               ++ lit "Slide 1: Intro" ++ nl
               ++ lit "--------------" ++ nl
               ++ lit "Hello" ++ nl
               ++ lit "owls" ++ nl
               ++ nl).
Proof.
  split; [reflexivity|].
  exact (export_text ascii_upper demo_store (lit "2024-05-01T10:00:00")
           (VRef 1) (lit "Barn owls") [demo_slide] eq_refl).
Defined.

Lemma export_record_witness :
  read_outline demo_store (VRef 1) = Some [demo_slide]
  /\ exists h' json_data text_content presentation,
       export_to_formats ascii_upper (lit "2024-05-01T10:00:00")
         (VRef 1) (lit "Barn owls") demo_store
       = (h', Ok (json_data, text_content))
       /\ field h' json_data (lit "presentation") = Some presentation
       /\ field h' presentation (lit "topic") = Some (VStr (lit "Barn owls"))
       /\ field h' presentation (lit "slides") = Some (VRef 1)
       /\ read_outline h' (VRef 1) = Some [demo_slide].
Proof.
  split; [reflexivity|].
  exact (export_record ascii_upper demo_store (lit "2024-05-01T10:00:00")
           (VRef 1) (lit "Barn owls") [demo_slide] eq_refl).
Defined.

Lemma export_leaves_slides_witness :
  read_outline demo_store (VRef 1) = Some [demo_slide]
  /\ read_outline
       (fst (export_to_formats ascii_upper (lit "2024-05-01T10:00:00")
               (VRef 1) (lit "Barn owls") demo_store))
       (VRef 1) = Some [demo_slide].
Proof.
  split; [reflexivity|].
  exact (proj1 (export_leaves_slides ascii_upper demo_store
                  (lit "2024-05-01T10:00:00") (VRef 1) (lit "Barn owls")
                  [demo_slide] eq_refl)).
Defined.

(** The record shares the list with the caller: an edit made through the
    caller's reference after the export shows in the record's slides. *)
Example export_shares_slides :
  let h1 := exported_store demo_store (lit "2024-05-01T10:00:00") (VRef 1)
              (lit "Barn owls") in
  let h2 := fst (edit_content (VRef 1) 0 (lit "Edited") h1) in
  field h2 (VRef 2) (lit "slides") = Some (VRef 1)
  /\ read_outline h2 (VRef 1)
     = Some [ {| title := lit "Slide 1: Intro"; content := lit "Edited" |} ].
Proof. split; reflexivity. Qed.

(** ** Every outline has a place in the store *)

Lemma store_slides_run (sl : list slide) (h : heap) :
  store_slides sl h
  = (h ++ map slide_obj sl,
     Ok (map VRef (seq (List.length h) (List.length sl)))).
Proof.
  revert h; induction sl as [|s sl IH]; intros h; cbn [store_slides].
  - unfold mret. cbn [map seq List.length]. now rewrite app_nil_r.
  - unfold mbind at 1. unfold store_slide, alloc at 1. cbn [Ok].
    unfold mbind at 1. rewrite IH. cbn [Ok]. unfold mret.
    rewrite length_app, Nat.add_1_r, <- app_assoc. reflexivity.
Qed.

Lemma read_slide_stored (h rest : heap) (s : slide) :
  read_slide (h ++ slide_obj s :: rest) (VRef (List.length h)) = Some s.
Proof.
  unfold read_slide. rewrite nth_error_app2, Nat.sub_diag by lia.
  destruct s as [t c]. reflexivity.
Qed.

Lemma read_slides_stored (sl : list slide) (h rest : heap) :
  read_slides (h ++ map slide_obj sl ++ rest)
    (map VRef (seq (List.length h) (List.length sl)))
  = Some sl.
Proof.
  revert h; induction sl as [|s sl IH]; intros h; [reflexivity|].
  cbn [map seq List.length read_slides app].
  rewrite read_slide_stored.
  specialize (IH (h ++ [slide_obj s])).
  rewrite length_app, Nat.add_1_r, <- app_assoc in IH. cbn [app] in IH.
  now rewrite IH.
Qed.

(** The objects the generator's result consists of read back as that
    outline, in whatever store they are created. *)
Lemma store_outline_read (sl : list slide) (h : heap) :
  exists h' slides,
    store_outline sl h = (h', Ok slides) /\ read_outline h' slides = Some sl.
Proof.
  unfold store_outline, mbind. rewrite store_slides_run. cbn [Ok].
  unfold alloc. do 2 eexists. split; [reflexivity|].
  unfold read_outline. rewrite nth_error_app2, Nat.sub_diag by lia.
  cbn [nth_error]. rewrite <- app_assoc. apply read_slides_stored.
Qed.

(** ** The generator and the exporter together *)

(** Whatever the topic, category and count, generating an outline, holding
    it in the store and exporting it raises nothing and gives the text of
    that outline. *)
Corollary generate_then_export (str_upper : str -> str) (h : heap)
    (now_isoformat topic template_type : str) (num_slides : Z) :
  exists sl h1 slides json_data,
    generate_detailed_content topic template_type num_slides = Ok sl
    /\ store_outline sl h = (h1, Ok slides)
    /\ snd (export_to_formats str_upper now_isoformat slides topic h1)
       = Ok (json_data, render_text str_upper sl topic).
Proof.
  destruct (resolve_template_total template_type) as (template & Hr & _).
  pose proof (generate_detailed_content_eq topic _ num_slides _ Hr) as Hg.
  destruct (store_outline_read
              (slides_from topic template_type 0
                 (firstn (Z.to_nat num_slides) template)) h)
    as (h1 & slides & Hs & Hread).
  do 4 eexists. split; [exact Hg|]. split; [exact Hs|].
  now rewrite (export_to_formats_run _ _ _ _ _ _ Hread).
Qed.

Example generate_zero_slides :
  generate_detailed_content (lit "X") (lit "technical") 0 = Ok [].
Proof. reflexivity. Qed.

(** * Further properties of the generator *)

Lemma mem_str_In (x : str) (l : list str) : mem_str x l = true <-> In x l.
Proof.
  induction l as [|y l IH]; simpl; [split; [discriminate | contradiction]|].
  rewrite orb_true_iff, str_eqb_eq, IH. tauto.
Qed.

Lemma distinct_NoDup (l : list str) : distinct l = true -> NoDup l.
Proof.
  induction l as [|x l IH]; simpl; intros H; constructor;
    apply andb_true_iff in H; destruct H as [Hx Hl].
  - intros Hin. apply mem_str_In in Hin. rewrite Hin in Hx. discriminate.
  - auto.
Qed.

Lemma slides_from_firstn (topic c : str) (n i : nat) (titles : list str) :
  firstn n (slides_from topic c i titles)
  = slides_from topic c i (firstn n titles).
Proof.
  revert i titles; induction n as [|n IH]; intros i [|t titles]; simpl;
    try reflexivity.
  now rewrite IH.
Qed.

Lemma slides_from_titles (topic c : str) (i : nat) (titles : list str) :
  map title (slides_from topic c i titles)
  = map title (slides_from [] [] i titles).
Proof.
  revert i; induction titles as [|t titles IH]; intros i; simpl;
    [reflexivity | now rewrite IH].
Qed.

Lemma NoDup_firstn {A} (n : nat) (l : list A) : NoDup l -> NoDup (firstn n l).
Proof.
  intros H. rewrite <- (firstn_skipn n l) in H.
  now apply NoDup_app_remove_r in H.
Qed.

(** The resolved template is one of the lists of the table. *)
Lemma resolve_template_In (c : str) (template : list str) :
  resolve_template c = Ok template -> In template (map snd TEMPLATES).
Proof.
  destruct (resolve_template_get c) as (default & Hd & ->).
  intros [= <-]. unfold dict_get.
  destruct (dict_lookup TEMPLATES c) as [titles|] eqn:E.
  - apply (in_map snd _ _ (dict_lookup_Some_In _ _ _ E)).
  - apply (in_map snd _ _ (dict_lookup_Some_In _ _ _ Hd)).
Qed.

Lemma resolve_template_length (c : str) (template : list str) :
  resolve_template c = Ok template -> List.length template = 10%nat.
Proof.
  intros H. destruct (resolve_template_total c) as (t & Ht & Hl).
  rewrite H in Ht. injection Ht as <-. unfold len in Hl. lia.
Qed.

(** The content of a slide embeds the topic, whatever the title. *)
Lemma generate_slide_details_embeds_topic (S T c : str) :
  substring S (generate_slide_details S T c).
Proof.
  unfold generate_slide_details, dict_get.
  destruct (dict_lookup (content_map S) T) as [v|] eqn:E.
  - pose proof (content_map_embeds_topic S) as HF.
    rewrite Forall_forall in HF.
    exact (HF _ (dict_lookup_Some_In _ _ _ E)).
  - exists (lit "Detailed information about " ++ T ++ lit " in the context of "), [].
    now rewrite app_nil_r, <- !app_assoc.
Qed.

(** X1. In every generated outline the slide at position [i] has the content
    [generate_slide_details] gives for the topic and the title at position
    [i] of the resolved template. *)
Theorem generate_contents (topic c : str) (k : Z) (template : list str)
    (sl : list slide) (i : nat) (s : slide) :
  resolve_template c = Ok template ->
  generate_detailed_content topic c k = Ok sl ->
  nth_error sl i = Some s ->
  exists t,
    nth_error template i = Some t
    /\ content s = generate_slide_details topic t c.
Proof.
  intros Hr Hg Hi.
  rewrite (generate_detailed_content_eq _ _ _ _ Hr) in Hg.
  injection Hg as <-.
  destruct (slides_from_nth _ _ _ _ _ _ Hi) as (t & Ht & ->).
  exists t. split; [|reflexivity].
  eapply nth_error_firstn_Some; eassumption.
Qed.

Lemma generate_contents_witness :
  exists t,
    nth_error [ lit "Research Question"; lit "Literature Review";
                lit "Methodology"; lit "Data Collection";
                lit "Results & Analysis"; lit "Discussion";
                lit "Limitations"; lit "Implications";
                lit "Future Research"; lit "Conclusions" ] 1 = Some t
    /\ lit "Previous research and findings related to Owls"
       = generate_slide_details (lit "Owls") t (lit "research").
Proof.
  apply (generate_contents (lit "Owls") (lit "research") 2 _
           [ {| title := lit "Slide 1: Research Question";
                content := lit "Key research questions driving our study of Owls" |};
             {| title := lit "Slide 2: Literature Review";
                content := lit "Previous research and findings related to Owls" |} ]
           1
           {| title := lit "Slide 2: Literature Review";
              content := lit "Previous research and findings related to Owls" |});
    reflexivity.
Defined.

(** X2. Every slide of every generated outline, canned or fallback, has the
    topic itself, unchanged, inside its content. *)
Theorem generate_contents_embed_topic (topic c : str) (k : Z)
    (sl : list slide) (s : slide) :
  generate_detailed_content topic c k = Ok sl ->
  In s sl ->
  substring topic (content s).
Proof.
  intros Hg Hin.
  destruct (resolve_template_total c) as (template & Hr & _).
  apply In_nth_error in Hin. destruct Hin as (i & Hi).
  rewrite (generate_detailed_content_eq _ _ _ _ Hr) in Hg.
  injection Hg as <-.
  destruct (slides_from_nth _ _ _ _ _ _ Hi) as (t & _ & ->).
  apply generate_slide_details_embeds_topic.
Qed.

Lemma generate_contents_embed_topic_witness :
  substring (lit "oWLs")
    (lit "Detailed information about Conclusion in the context of oWLs").
Proof.
  apply (generate_contents_embed_topic (lit "oWLs") (lit "technical") 10
           (slides_from (lit "oWLs") (lit "technical") 0
              [ lit "Introduction & Overview"; lit "Problem Definition";
                lit "Technical Requirements"; lit "Architecture & Design";
                lit "Implementation Details"; lit "Testing & Validation";
                lit "Performance Analysis"; lit "Security Considerations";
                lit "Future Enhancements"; lit "Conclusion" ])
           {| title := lit "Slide 10: Conclusion";
              content := lit "Detailed information about Conclusion in the context of oWLs" |}).
  - reflexivity.
  - do 9 right. left. reflexivity.
Defined.

(** X3. Asking for fewer slides gives a prefix: for [k <= k'] the outline for
    [k] is the first [k] slides of the outline for [k'] (none when [k] is
    zero or negative). *)
Theorem generate_prefix (topic c : str) (k k' : Z) (sl' : list slide) :
  (k <= k')%Z ->
  generate_detailed_content topic c k' = Ok sl' ->
  generate_detailed_content topic c k = Ok (firstn (Z.to_nat k) sl').
Proof.
  intros Hk Hg.
  destruct (resolve_template_total c) as (template & Hr & _).
  rewrite (generate_detailed_content_eq _ _ _ _ Hr) in Hg.
  rewrite (generate_detailed_content_eq _ _ _ _ Hr).
  injection Hg as <-.
  rewrite slides_from_firstn, firstn_firstn.
  now replace (Nat.min (Z.to_nat k) (Z.to_nat k')) with (Z.to_nat k) by lia.
Qed.

Lemma generate_prefix_witness :
  generate_detailed_content (lit "Owls") (lit "educational") 1
  = Ok (firstn (Z.to_nat 1)
          [ {| title := lit "Slide 1: Learning Objectives";
               content := lit "What you will learn about Owls by the end of this session" |};
            {| title := lit "Slide 2: Background & Context";
               content := lit "Historical background and current state of Owls" |} ]).
Proof.
  apply (generate_prefix (lit "Owls") (lit "educational") 1 2);
    [lia | reflexivity].
Defined.

(** X4. No category has more than ten titles, so a count of ten or more, for
    any category, known or not, gives the outline that ten gives. *)
Theorem generate_saturates (topic c : str) (k : Z) :
  (10 <= k)%Z ->
  generate_detailed_content topic c k = generate_detailed_content topic c 10.
Proof.
  intros Hk.
  destruct (resolve_template_total c) as (template & Hr & _).
  pose proof (resolve_template_length _ _ Hr) as Hl.
  rewrite !(generate_detailed_content_eq _ _ _ _ Hr).
  rewrite !firstn_all2 by lia. reflexivity.
Qed.

Lemma generate_saturates_witness :
  generate_detailed_content (lit "Owls") (lit "nonsense") 15
  = generate_detailed_content (lit "Owls") (lit "nonsense") 10.
Proof. apply generate_saturates. lia. Defined.

(** X5. For every category string, known or not, and every integer count
    the generator raises nothing and returns [max 0 (min k 10)] slides: never
    more than ten. *)
Theorem generate_length_any_category (topic c : str) (k : Z) :
  exists sl,
    generate_detailed_content topic c k = Ok sl
    /\ len sl = Z.max 0 (Z.min k 10).
Proof.
  destruct (resolve_template_total c) as (template & Hr & _).
  pose proof (resolve_template_length _ _ Hr) as Hl.
  rewrite (generate_detailed_content_eq _ _ _ _ Hr).
  eexists; split; [reflexivity|].
  unfold len. rewrite slides_from_length, length_firstn. lia.
Qed.

(** The numbered titles of each full template are distinct. *)
Lemma full_outline_titles_distinct :
  Forall (fun template => NoDup (map title (slides_from [] [] 0 template)))
    (map snd TEMPLATES).
Proof.
  unfold TEMPLATES. cbn [map snd].
  repeat (apply Forall_cons; [apply distinct_NoDup; vm_compute; reflexivity|]).
  apply Forall_nil.
Qed.

(** X6. The slide titles of a generated outline are pairwise distinct. *)
Theorem generate_titles_distinct (topic c : str) (k : Z) (sl : list slide) :
  generate_detailed_content topic c k = Ok sl ->
  NoDup (map title sl).
Proof.
  intros Hg.
  destruct (resolve_template_total c) as (template & Hr & _).
  rewrite (generate_detailed_content_eq _ _ _ _ Hr) in Hg.
  injection Hg as <-.
  rewrite slides_from_titles, <- slides_from_firstn, <- firstn_map.
  apply NoDup_firstn.
  pose proof full_outline_titles_distinct as HF. rewrite Forall_forall in HF.
  apply HF, (resolve_template_In _ _ Hr).
Qed.

Lemma generate_titles_distinct_witness :
  NoDup [ lit "Slide 1: Executive Summary"; lit "Slide 2: Problem Statement" ].
Proof.
  apply (generate_titles_distinct (lit "Owls") (lit "business") 2
           (slides_from (lit "Owls") (lit "business") 0
              [ lit "Executive Summary"; lit "Problem Statement" ])).
  reflexivity.
Defined.

(** X7. The forty titles of the table are pairwise distinct, within and
    across categories, so the title-keyed lookup of canned content never
    confuses two template titles. *)
Theorem TEMPLATES_titles_distinct : NoDup (concat (map snd TEMPLATES)).
Proof. apply distinct_NoDup. vm_compute. reflexivity. Qed.

(** * Further properties of the exporter *)

Lemma mbind_raise {A B} (m : M A) (f : A -> M B) (h h' : heap) (e : exn) :
  m h = (h', Raise e) -> mbind m f h = (h', Raise e).
Proof. intros H. unfold mbind. now rewrite H. Qed.

(** The call first creates the record, then runs the loop in that store. *)
Lemma export_to_formats_steps (str_upper : str -> str) (h : heap)
    (now_isoformat : str) (slides : value) (topic : str) :
  export_to_formats str_upper now_isoformat slides topic h
  = (items <- iterate slides ;;
     text_content <-
       mfor_each items (export_header str_upper topic) export_loop_body ;;
     mret (VRef (S (List.length h)), text_content))%store
      (exported_store h now_isoformat slides topic).
Proof.
  unfold export_to_formats, exported_store.
  unfold mbind at 1. unfold alloc at 1.
  unfold mbind at 1. unfold alloc at 1. cbv beta iota. cbn [Ok].
  cbv beta iota.
  rewrite <- (app_assoc h [_] [_]). cbn [app].
  rewrite length_app, Nat.add_1_r. reflexivity.
Qed.

Lemma exported_store_grow (h : heap) (now_isoformat : str) (slides : value)
    (topic : str) (l : loc) (o : obj) :
  nth_error h l = Some o ->
  nth_error (exported_store h now_isoformat slides topic) l = Some o.
Proof. apply nth_error_grow. Qed.

(** The loop stops at the first item whose block raises. *)
Lemma export_loop_raise (h : heap) (pre post : list value) (v : value)
    (sl : list slide) (acc : str) (e : exn) :
  read_slides h pre = Some sl ->
  (forall text, export_loop_body text v h = (h, Raise e)) ->
  mfor_each (pre ++ v :: post) acc export_loop_body h = (h, Raise e).
Proof.
  intros Hpre Hv. revert sl acc Hpre.
  induction pre as [|x pre IH]; intros sl acc Hpre; cbn [app mfor_each].
  - apply mbind_raise, Hv.
  - cbn [read_slides] in Hpre.
    destruct (read_slide h x) as [s|] eqn:Es; [|discriminate].
    destruct (read_slides h pre) as [sl'|] eqn:Epre; [|discriminate].
    pose proof (export_loop h [x] [s] acc) as Hx.
    cbn [read_slides mfor_each] in Hx. rewrite Es in Hx.
    specialize (Hx eq_refl).
    unfold mbind at 1 in Hx. unfold mbind at 1.
    change (export_loop_body acc x h) with
      ((fun text_content slide =>
          t <- getitem slide (lit "title") ;;
          t <- format t ;;
          let* text_content := text_content ++ (t ++ nl) in
          t <- getitem slide (lit "title") ;;
          n <- len_value t ;;
          let* text_content := text_content ++ (str_mul (lit "-") n ++ nl) in
          c <- getitem slide (lit "content") ;;
          c <- format c ;;
          let* text_content := text_content ++ (c ++ nl ++ nl) in
          mret text_content)%store acc x h).
    cbv beta in Hx |- *.
    destruct (mbind (getitem x (lit "title")) _ h) as [h1 [e1|a1]];
      cbn [mret Ok] in Hx; [discriminate|].
    injection Hx as -> _. eapply IH. reflexivity.
Qed.


(** X9. A slide dict without ["title"], or with a string title and without
    ["content"], makes the exporter raise [KeyError] when the loop reaches
    it, the slides before it being in order. *)
Theorem export_missing_key (str_upper : str -> str) (h : heap)
    (now_isoformat topic : str) (l ld : loc) (pre post : list value)
    (sl : list slide) (d : dict value) :
  nth_error h l = Some (OList (pre ++ VRef ld :: post)) ->
  read_slides h pre = Some sl ->
  nth_error h ld = Some (ODict d) ->
  dict_lookup d (lit "title") = None
  \/ (exists t, dict_lookup d (lit "title") = Some (VStr t))
     /\ dict_lookup d (lit "content") = None ->
  snd (export_to_formats str_upper now_isoformat (VRef l) topic h)
  = Raise KeyError.
Proof.
  intros Hl Hpre Hd Hmiss.
  rewrite export_to_formats_steps.
  set (h' := exported_store h now_isoformat (VRef l) topic).
  apply (exported_store_grow _ now_isoformat (VRef l) topic) in Hl, Hd.
  fold h' in Hl, Hd.
  apply (read_slides_grow _ (skipn (List.length h) h')) in Hpre.
  replace (h ++ skipn (List.length h) h') with h' in Hpre
    by (unfold h', exported_store;
        now rewrite skipn_app, skipn_all, Nat.sub_diag).
  unfold mbind at 1. unfold iterate, mbind at 1, deref. rewrite Hl.
  cbn [Ok mret].
  erewrite mbind_raise; [reflexivity|].
  eapply export_loop_raise; [exact Hpre|]. intros text.
  unfold export_loop_body.
  unfold mbind at 1. unfold getitem at 1, mbind at 1, deref. rewrite Hd.
  cbn [Ok]. unfold lift, dict_getitem.
  destruct Hmiss as [Ht|[(t & Ht) Hc]]; rewrite Ht; [reflexivity|].
  cbn [Ok Raise]. unfold mbind at 1. cbn [format mret Ok].
  unfold mbind at 1. unfold getitem at 1, mbind at 1, deref. rewrite Hd.
  cbn [Ok]. unfold lift, dict_getitem. rewrite Ht. cbn [Ok].
  unfold mbind at 1. cbn [len_value mret Ok].
  unfold mbind at 1. unfold getitem at 1, mbind at 1, deref. rewrite Hd.
  cbn [Ok]. unfold lift, dict_getitem. rewrite Hc. reflexivity.
Qed.

Lemma export_missing_key_witness :
  snd (export_to_formats ascii_upper (lit "2024-05-01T10:00:00") (VRef 1)
         (lit "Barn owls") demo_store_no_content)
  = Raise KeyError.
Proof.
  apply (export_missing_key ascii_upper demo_store_no_content
           (lit "2024-05-01T10:00:00") (lit "Barn owls") 1%nat 0%nat [] [] []
           [ (lit "title", VStr (lit "Slide 1: Intro")) ]);
    try reflexivity.
  right. split; [eexists; reflexivity | reflexivity].
Defined.

(** X10. An item of the list that is a string, or a list, and not a dict
    makes the exporter raise [TypeError] when the loop reaches it, the
    slides before it being in order. *)
Theorem export_item_not_dict (str_upper : str -> str) (h : heap)
    (now_isoformat topic : str) (l : loc) (pre post : list value) (v : value)
    (sl : list slide) :
  nth_error h l = Some (OList (pre ++ v :: post)) ->
  read_slides h pre = Some sl ->
  (exists s, v = VStr s)
  \/ (exists l' xs, v = VRef l' /\ nth_error h l' = Some (OList xs)) ->
  snd (export_to_formats str_upper now_isoformat (VRef l) topic h)
  = Raise TypeError.
Proof.
  intros Hl Hpre Hv.
  rewrite export_to_formats_steps.
  set (h' := exported_store h now_isoformat (VRef l) topic).
  apply (exported_store_grow _ now_isoformat (VRef l) topic) in Hl.
  fold h' in Hl.
  apply (read_slides_grow _ (skipn (List.length h) h')) in Hpre.
  replace (h ++ skipn (List.length h) h') with h' in Hpre
    by (unfold h', exported_store;
        now rewrite skipn_app, skipn_all, Nat.sub_diag).
  unfold mbind at 1. unfold iterate, mbind at 1, deref. rewrite Hl.
  cbn [Ok mret].
  erewrite mbind_raise; [reflexivity|].
  eapply export_loop_raise; [exact Hpre|]. intros text.
  unfold export_loop_body.
  destruct Hv as [(s & ->)|(l' & xs & -> & Hxs)]; [reflexivity|].
  apply (exported_store_grow _ now_isoformat (VRef l) topic) in Hxs.
  fold h' in Hxs.
  unfold mbind at 1. unfold getitem at 1, mbind at 1, deref. rewrite Hxs.
  reflexivity.
Qed.

Lemma export_item_not_dict_witness :
  snd (export_to_formats ascii_upper (lit "2024-05-01T10:00:00") (VRef 0)
         (lit "Barn owls") demo_store_strings)
  = Raise TypeError.
Proof.
  apply (export_item_not_dict ascii_upper demo_store_strings
           (lit "2024-05-01T10:00:00") (lit "Barn owls") 0%nat [] []
           (VStr (lit "Slide 1: Intro")) []);
    try reflexivity.
  left. eexists; reflexivity.
Defined.

(** X11. With nothing to loop over (an empty list, but also an empty dict or
    the empty string) the exporter raises nothing and the text is the header
    alone: the title line, the line of 50 ['='] and a blank line. *)
Theorem export_nothing (str_upper : str -> str) (h : heap)
    (now_isoformat topic : str) (slides : value) :
  slides = VStr []
  \/ (exists l, slides = VRef l
                /\ (nth_error h l = Some (OList [])
                    \/ nth_error h l = Some (ODict []))) ->
  snd (export_to_formats str_upper now_isoformat slides topic h)
  = Ok (VRef (S (List.length h)),
        lit "PRESENTATION: " ++ str_upper topic ++ nl
          ++ repeat (char "=") 50 ++ nl
          ++ nl).
Proof.
  intros Hs. rewrite export_to_formats_steps.
  set (h' := exported_store h now_isoformat slides topic).
  assert (Hit : iterate slides h' = (h', Ok [])).
  { destruct Hs as [->|(l & -> & [Hl|Hl])]; [reflexivity| |];
      apply (exported_store_grow _ now_isoformat (VRef l) topic) in Hl;
      fold h' in Hl; unfold iterate, mbind, deref; rewrite Hl; reflexivity. }
  unfold mbind at 1. rewrite Hit. cbn [Ok mfor_each].
  unfold mbind, mret. cbn [snd Ok]. do 2 f_equal.
  unfold export_header.
  change (lit "=") with [char "="].
  change 50%Z with (Z.of_nat 50). rewrite str_mul_char.
  now rewrite <- !app_assoc.
Qed.

Lemma export_nothing_witness :
  snd (export_to_formats ascii_upper (lit "2024-05-01T10:00:00") (VRef 0)
         (lit "owls") [ OList [] ])
  = Ok (VRef 2,
        lit "PRESENTATION: OWLS" ++ nl
          ++ lit "==================================================" ++ nl
          ++ nl).
Proof.
  exact (export_nothing ascii_upper [ OList [] ] (lit "2024-05-01T10:00:00")
           (lit "owls") (VRef 0)
           (or_intror (ex_intro _ 0%nat (conj eq_refl (or_introl eq_refl))))).
Defined.

(** X12. Exporting the same outline twice, at two times, raises nothing and
    gives the same text both times and two different records; in the final
    store each record carries its own timestamp and both hold the one list
    that was passed in. *)
Theorem export_twice (str_upper : str -> str) (h : heap)
    (now1 now2 topic : str) (slides : value) (sl : list slide) :
  read_outline h slides = Some sl ->
  exists h1 h2 json1 json2 text p1 p2,
    export_to_formats str_upper now1 slides topic h = (h1, Ok (json1, text))
    /\ export_to_formats str_upper now2 slides topic h1 = (h2, Ok (json2, text))
    /\ json1 <> json2
    /\ field h2 json1 (lit "presentation") = Some p1
    /\ field h2 p1 (lit "created") = Some (VStr now1)
    /\ field h2 p1 (lit "slides") = Some slides
    /\ field h2 json2 (lit "presentation") = Some p2
    /\ field h2 p2 (lit "created") = Some (VStr now2)
    /\ field h2 p2 (lit "slides") = Some slides
    /\ read_outline h2 slides = Some sl.
Proof.
  intros H.
  pose proof (export_to_formats_run str_upper h now1 slides topic sl H) as E1.
  set (h1 := exported_store h now1 slides topic) in *.
  assert (H1 : read_outline h1 slides = Some sl)
    by (now apply read_outline_grow).
  pose proof (export_to_formats_run str_upper h1 now2 slides topic sl H1) as E2.
  set (h2 := exported_store h1 now2 slides topic) in *.
  assert (L1 : List.length h1 = (List.length h + 2)%nat)
    by (unfold h1, exported_store; now rewrite length_app).
  exists h1, h2, (VRef (S (List.length h))), (VRef (S (List.length h1))),
    (render_text str_upper sl topic),
    (VRef (List.length h)), (VRef (List.length h1)).
  split; [exact E1|]. split; [exact E2|].
  split; [intros [= E]; lia|].
  assert (F1 : forall n o, nth_error h1 n = Some o -> nth_error h2 n = Some o)
    by (intros n o; apply nth_error_grow).
  assert (A1 : nth_error h1 (List.length h)
               = Some (ODict [ (lit "topic", VStr topic);
                               (lit "created", VStr now1);
                               (lit "slides", slides) ])).
  { unfold h1, exported_store.
    now rewrite nth_error_app2, Nat.sub_diag by lia. }
  assert (B1 : nth_error h1 (S (List.length h))
               = Some (ODict [ (lit "presentation", VRef (List.length h)) ])).
  { unfold h1, exported_store. rewrite nth_error_app2 by lia.
    now replace (S (List.length h) - List.length h)%nat with 1%nat by lia. }
  assert (A2 : nth_error h2 (List.length h1)
               = Some (ODict [ (lit "topic", VStr topic);
                               (lit "created", VStr now2);
                               (lit "slides", slides) ])).
  { unfold h2, exported_store.
    now rewrite nth_error_app2, Nat.sub_diag by lia. }
  assert (B2 : nth_error h2 (S (List.length h1))
               = Some (ODict [ (lit "presentation", VRef (List.length h1)) ])).
  { unfold h2, exported_store. rewrite nth_error_app2 by lia.
    now replace (S (List.length h1) - List.length h1)%nat with 1%nat by lia. }
  unfold field.
  rewrite (F1 _ _ A1), (F1 _ _ B1), A2, B2.
  repeat split; try reflexivity.
  now apply read_outline_grow.
Qed.

Lemma export_twice_witness :
  exists h1 h2 json1 json2 text p1 p2,
    export_to_formats ascii_upper (lit "10:00") (VRef 1) (lit "owls") demo_store
    = (h1, Ok (json1, text))
    /\ export_to_formats ascii_upper (lit "11:30") (VRef 1) (lit "owls") h1
       = (h2, Ok (json2, text))
    /\ json1 <> json2
    /\ field h2 json1 (lit "presentation") = Some p1
    /\ field h2 p1 (lit "created") = Some (VStr (lit "10:00"))
    /\ field h2 p1 (lit "slides") = Some (VRef 1)
    /\ field h2 json2 (lit "presentation") = Some p2
    /\ field h2 p2 (lit "created") = Some (VStr (lit "11:30"))
    /\ field h2 p2 (lit "slides") = Some (VRef 1)
    /\ read_outline h2 (VRef 1) = Some [demo_slide].
Proof.
  exact (export_twice ascii_upper demo_store (lit "10:00") (lit "11:30")
           (lit "owls") (VRef 1) [demo_slide] eq_refl).
Defined.

(** * The caller *)

(** ** Writes to the store *)

Lemma length_update (h : heap) (l : loc) (o : obj) :
  List.length (update h l o) = List.length h.
Proof.
  revert l; induction h as [|x h IH]; intros [|l]; simpl; auto.
Qed.

Lemma nth_error_update_eq (h : heap) (l : loc) (o o' : obj) :
  nth_error h l = Some o' -> nth_error (update h l o) l = Some o.
Proof.
  revert l; induction h as [|x h IH]; intros [|l]; simpl;
    try discriminate; auto.
Qed.

Lemma nth_error_update_neq (h : heap) (l l' : loc) (o : obj) :
  l <> l' -> nth_error (update h l o) l' = nth_error h l'.
Proof.
  revert l l'; induction h as [|x h IH]; intros [|l] [|l'] Hn; simpl;
    try reflexivity; try contradiction.
  apply IH. congruence.
Qed.

Lemma dict_lookup_set_eq {V} (d : dict V) (k : str) (v : V) :
  dict_lookup (dict_set d k v) k = Some v.
Proof.
  induction d as [|[k' v'] d IH]; simpl.
  - now rewrite str_eqb_refl.
  - destruct (str_eqb k' k) eqn:E; simpl; rewrite E; auto.
Qed.

Lemma dict_lookup_set_neq {V} (d : dict V) (k k' : str) (v : V) :
  k <> k' -> dict_lookup (dict_set d k v) k' = dict_lookup d k'.
Proof.
  intros Hn. induction d as [|[k0 v0] d IH]; simpl.
  - destruct (str_eqb k k') eqn:E; [apply str_eqb_eq in E; contradiction|].
    reflexivity.
  - destruct (str_eqb k0 k) eqn:E; simpl.
    + apply str_eqb_eq in E; subst k0.
      destruct (str_eqb k k') eqn:E'; [apply str_eqb_eq in E'; contradiction|].
      reflexivity.
    + destruct (str_eqb k0 k'); auto.
Qed.

Lemma read_slide_update_other (h : heap) (l : loc) (o : obj) (v : value) :
  v <> VRef l -> read_slide (update h l o) v = read_slide h v.
Proof.
  destruct v as [s|l']; [reflexivity|]. intros Hn. unfold read_slide.
  rewrite nth_error_update_neq by congruence. reflexivity.
Qed.

Lemma read_slides_update_other (h : heap) (l : loc) (o : obj) (vs : list value) :
  ~ In (VRef l) vs -> read_slides (update h l o) vs = read_slides h vs.
Proof.
  induction vs as [|v vs IH]; intros Hn; [reflexivity|].
  cbn [read_slides]. rewrite read_slide_update_other, IH; auto.
  - intros Hin. apply Hn. now right.
  - intros ->. apply Hn. now left.
Qed.

Lemma read_slide_update_self (h : heap) (l : loc) (d : dict value)
    (s : slide) (c : str) :
  nth_error h l = Some (ODict d) ->
  read_slide h (VRef l) = Some s ->
  read_slide (update h l (ODict (dict_set d (lit "content") (VStr c)))) (VRef l)
  = Some {| title := title s; content := c |}.
Proof.
  intros Hd Hs. unfold read_slide in *.
  rewrite (nth_error_update_eq _ _ _ _ Hd). rewrite Hd in Hs.
  rewrite dict_lookup_set_neq by discriminate.
  rewrite dict_lookup_set_eq.
  destruct (dict_lookup d (lit "title")) as [[t|]|]; try discriminate.
  destruct (dict_lookup d (lit "content")) as [[c0|]|]; try discriminate.
  now injection Hs as <-.
Qed.

Lemma read_slide_dict (h : heap) (v : value) (s : slide) :
  read_slide h v = Some s ->
  exists l d, v = VRef l /\ nth_error h l = Some (ODict d).
Proof.
  destruct v as [x|l]; simpl; [discriminate|].
  destruct (nth_error h l) as [[d|xs]|] eqn:E; try discriminate.
  intros _. exists l, d. split; [reflexivity | exact E].
Qed.

Lemma read_slides_app (h : heap) (a b : list value) :
  read_slides h (a ++ b)
  = match read_slides h a, read_slides h b with
    | Some x, Some y => Some (x ++ y)
    | _, _ => None
    end.
Proof.
  induction a as [|v a IH]; cbn [app read_slides].
  - destruct (read_slides h b); reflexivity.
  - rewrite IH. destruct (read_slide h v); [|reflexivity].
    destruct (read_slides h a); [|reflexivity].
    destruct (read_slides h b); reflexivity.
Qed.

Lemma read_slides_length (h : heap) (vs : list value) (sl : list slide) :
  read_slides h vs = Some sl -> List.length sl = List.length vs.
Proof.
  revert sl; induction vs as [|v vs IH]; intros sl; cbn [read_slides].
  - now intros [= <-].
  - destruct (read_slide h v); [|discriminate].
    destruct (read_slides h vs) as [sl'|]; [|discriminate].
    intros [= <-]. simpl. now rewrite (IH _ eq_refl).
Qed.

Lemma replace_content_app (pre post : list slide) (s : slide) (c : str) :
  replace_content (pre ++ s :: post) (List.length pre) c
  = pre ++ {| title := title s; content := c |} :: post.
Proof. induction pre as [|x pre IH]; simpl; [reflexivity | now rewrite IH]. Qed.

(** One assignment [slides[i]['content'] = c], [i] being the position after
    [pre]: the slide there gets the content, the rest stays. *)
Lemma edit_content_step (h : heap) (l : loc) (pre post : list value)
    (v : value) (sl_pre sl_post : list slide) (s : slide) (c : str) :
  nth_error h l = Some (OList (pre ++ v :: post)) ->
  NoDup (pre ++ v :: post) ->
  read_slides h pre = Some sl_pre ->
  read_slide h v = Some s ->
  read_slides h post = Some sl_post ->
  exists h',
    edit_content (VRef l) (Z.of_nat (List.length pre)) c h = (h', Ok tt)
    /\ nth_error h' l = Some (OList (pre ++ v :: post))
    /\ read_slides h' pre = Some sl_pre
    /\ read_slide h' v = Some {| title := title s; content := c |}
    /\ read_slides h' post = Some sl_post
    /\ List.length h' = List.length h.
Proof.
  intros Hl Hnd Hpre Hv Hpost.
  destruct (read_slide_dict _ _ _ Hv) as (lv & d & -> & Hd).
  assert (Hne : lv <> l) by (intros ->; congruence).
  apply NoDup_remove_2 in Hnd.
  assert (Hnpre : ~ In (VRef lv) pre)
    by (intros Hin; apply Hnd, in_or_app; now left).
  assert (Hnpost : ~ In (VRef lv) post)
    by (intros Hin; apply Hnd, in_or_app; now right).
  assert (Hget : list_getitem (pre ++ VRef lv :: post)
                   (Z.of_nat (List.length pre)) = Ok (VRef lv)).
  { apply list_getitem_nth.
    now rewrite nth_error_app2, Nat.sub_diag by lia. }
  eexists. split.
  - unfold edit_content.
    unfold mbind at 1. unfold getindex, mbind at 1, deref. rewrite Hl.
    cbn [Ok]. unfold lift. rewrite Hget. cbn [Ok].
    unfold setitem, mbind, deref. rewrite Hd. cbn [Ok]. reflexivity.
  - split; [rewrite nth_error_update_neq by assumption; exact Hl|].
    split; [now rewrite read_slides_update_other|].
    split; [now apply read_slide_update_self|].
    split; [now rewrite read_slides_update_other|].
    apply length_update.
Qed.

(** X13. One edit [slides[i]['content'] = c] of an outline whose slides are
    different objects raises nothing, gives the slide at position [i] the
    content [c], and leaves its title, the other slides and the number of
    slides as they were. *)
Theorem edit_content_outline (h : heap) (l : loc) (items : list value)
    (sl : list slide) (i : nat) (c : str) :
  nth_error h l = Some (OList items) ->
  NoDup items ->
  read_slides h items = Some sl ->
  (i < List.length sl)%nat ->
  exists h',
    edit_content (VRef l) (Z.of_nat i) c h = (h', Ok tt)
    /\ read_outline h' (VRef l) = Some (replace_content sl i c)
    /\ List.length (replace_content sl i c) = List.length sl.
Proof.
  intros Hl Hnd Hsl Hi.
  pose proof (read_slides_length _ _ _ Hsl) as Hlen.
  destruct (nth_error items i) as [v|] eqn:Ev;
    [|apply nth_error_None in Ev; lia].
  destruct (nth_error_split _ _ Ev) as (pre & post & -> & Hpre).
  rewrite read_slides_app in Hsl. cbn [read_slides] in Hsl.
  destruct (read_slides h pre) as [sl_pre|] eqn:E1; [|discriminate].
  destruct (read_slide h v) as [s|] eqn:E2; [|discriminate].
  destruct (read_slides h post) as [sl_post|] eqn:E3; [|discriminate].
  injection Hsl as <-.
  destruct (edit_content_step h l pre post v sl_pre sl_post s c
              Hl Hnd E1 E2 E3)
    as (h' & Hrun & Hl' & Hp' & Hv' & Hq' & _).
  pose proof (read_slides_length _ _ _ E1) as Hlp.
  exists h'. rewrite <- Hpre, <- Hlp, replace_content_app.
  split; [now rewrite Hlp|]. split.
  - unfold read_outline. rewrite Hl', read_slides_app. cbn [read_slides].
    now rewrite Hp', Hv', Hq'.
  - rewrite !length_app. reflexivity.
Qed.

Lemma edit_content_outline_witness :
  exists h',
    edit_content (VRef 1) (Z.of_nat 0) (lit "Edited") demo_store = (h', Ok tt)
    /\ read_outline h' (VRef 1)
       = Some [ {| title := lit "Slide 1: Intro"; content := lit "Edited" |} ]
    /\ List.length [ {| title := lit "Slide 1: Intro"; content := lit "Edited" |} ]
       = 1%nat.
Proof.
  apply (edit_content_outline demo_store 1%nat [VRef 0%nat] [demo_slide]
           0%nat (lit "Edited")); try reflexivity.
  - repeat constructor. intros [].
  - simpl. lia.
Defined.

(** ** The edit loop *)

Section CallerProperties.

Variable str_upper : str -> str.
Variable text_area : str -> str -> str -> str.

Lemma edit_slides_steps (slides : value) :
  edit_slides text_area slides
  = (items <- iterate slides ;;
     mfor_each (enumerate items) tt (edit_loop_body text_area slides))%store.
Proof. reflexivity. Qed.

Lemma enumerate_seq {A} (xs : list A) :
  enumerate xs = combine (map Z.of_nat (seq 0 (List.length xs))) xs.
Proof. unfold enumerate, range, len. now rewrite Nat2Z.id. Qed.

(** On a slide, one round of the loop is one assignment of what the widget
    holds. *)
Lemma edit_loop_body_run (h : heap) (slides v : value) (s : slide) (i : Z) :
  read_slide h v = Some s ->
  edit_loop_body text_area slides tt (i, v) h
  = edit_content slides i
      (text_area (lit "Content for slide " ++ str_of_int (i + 1) ++ lit ":")
         (content s) (lit "slide_" ++ str_of_int i)) h.
Proof.
  intros Hs. destruct (read_slide_fields _ _ _ Hs) as [Ht Hc].
  apply getitem_field in Ht, Hc.
  unfold edit_loop_body.
  unfold mbind at 1. rewrite Ht.
  unfold mbind at 1. cbn [format mret Ok].
  unfold mbind at 1. rewrite Hc.
  unfold mbind at 1. cbn [format mret Ok].
  reflexivity.
Qed.

Lemma edit_loop (l : loc) (rest : list value) :
  forall (pre : list value) (h : heap) (sl_pre sl_rest : list slide),
    nth_error h l = Some (OList (pre ++ rest)) ->
    NoDup (pre ++ rest) ->
    read_slides h pre = Some sl_pre ->
    read_slides h rest = Some sl_rest ->
    exists h',
      mfor_each
        (combine (map Z.of_nat (seq (List.length pre) (List.length rest))) rest)
        tt (edit_loop_body text_area (VRef l)) h
      = (h', Ok tt)
      /\ read_outline h' (VRef l)
         = Some (sl_pre ++ edited_from text_area (List.length pre) sl_rest)
      /\ List.length h' = List.length h.
Proof.
  induction rest as [|v rest IH]; intros pre h sl_pre sl_rest Hl Hnd Hpre Hrest.
  - injection Hrest as <-. exists h. split; [reflexivity|]. split; [|reflexivity].
    unfold read_outline. rewrite Hl, app_nil_r. cbn [edited_from].
    now rewrite app_nil_r.
  - cbn [read_slides] in Hrest.
    destruct (read_slide h v) as [s|] eqn:Ev; [|discriminate].
    destruct (read_slides h rest) as [sl_rest'|] eqn:Er; [|discriminate].
    injection Hrest as <-.
    cbn [List.length seq map combine mfor_each].
    set (c := text_area
                (lit "Content for slide "
                   ++ str_of_int (Z.of_nat (List.length pre) + 1) ++ lit ":")
                (content s)
                (lit "slide_" ++ str_of_int (Z.of_nat (List.length pre)))).
    destruct (edit_content_step h l pre rest v sl_pre sl_rest' s c
                Hl Hnd Hpre Ev Er)
      as (h1 & Hrun & Hl1 & Hp1 & Hv1 & Hr1 & Hlen1).
    destruct (IH (pre ++ [v]) h1
                (sl_pre ++ [ {| title := title s; content := c |} ]) sl_rest')
      as (h' & Hloop & Hout & Hlen').
    + now rewrite <- app_assoc.
    + now rewrite <- app_assoc.
    + rewrite read_slides_app. cbn [read_slides]. now rewrite Hp1, Hv1.
    + exact Hr1.
    + exists h'. rewrite length_app, Nat.add_1_r in Hloop, Hout.
      split.
      * unfold mbind. rewrite (edit_loop_body_run _ _ _ _ _ Ev).
        fold c. rewrite Hrun. cbn [Ok]. exact Hloop.
      * split; [|congruence].
        rewrite Hout, <- app_assoc. reflexivity.
Qed.

(** The edit loop on an outline whose slides are different objects. *)
Lemma edit_slides_run (h : heap) (l : loc) (items : list value)
    (sl : list slide) :
  nth_error h l = Some (OList items) ->
  NoDup items ->
  read_slides h items = Some sl ->
  exists h',
    edit_slides text_area (VRef l) h = (h', Ok tt)
    /\ read_outline h' (VRef l) = Some (edited_from text_area 0 sl)
    /\ map title (edited_from text_area 0 sl) = map title sl
    /\ List.length h' = List.length h.
Proof.
  intros Hl Hnd Hsl.
  destruct (edit_loop l items [] h [] sl Hl Hnd eq_refl Hsl)
    as (h' & Hloop & Hout & Hlen).
  exists h'. split.
  - rewrite edit_slides_steps.
    unfold mbind at 1. unfold iterate, mbind at 1, deref. rewrite Hl.
    cbn [Ok mret]. rewrite enumerate_seq. exact Hloop.
  - split; [exact Hout|]. split; [|exact Hlen].
    generalize 0%nat. clear. induction sl as [|s sl IH]; intros n; simpl;
      [reflexivity | now rewrite IH].
Qed.

(** X14. The edit loop, on an outline whose slides are different objects,
    raises nothing and gives every slide the text its widget holds (the
    widget being asked with the label ["Content for slide {i+1}:"], the
    present content and the key ["slide_{i}"]); titles, order and number of
    slides stay, and no object is added to the store. *)
Theorem edit_slides_outline (h : heap) (l : loc) (items : list value)
    (sl : list slide) :
  nth_error h l = Some (OList items) ->
  NoDup items ->
  read_slides h items = Some sl ->
  exists h',
    edit_slides text_area (VRef l) h = (h', Ok tt)
    /\ read_outline h' (VRef l) = Some (edited_from text_area 0 sl)
    /\ map title (edited_from text_area 0 sl) = map title sl
    /\ List.length h' = List.length h.
Proof. apply edit_slides_run. Qed.

(** When the widgets hold what they were given, one round writes back the
    content that is there: the store does not change. *)
Lemma dict_set_same {V} (d : dict V) (k : str) (v : V) :
  dict_lookup d k = Some v -> dict_set d k v = d.
Proof.
  induction d as [|[k' v'] d IH]; simpl; [discriminate|].
  destruct (str_eqb k' k); [now intros [= ->] | intros H; now rewrite IH].
Qed.

Lemma update_same (h : heap) (l : loc) (o : obj) :
  nth_error h l = Some o -> update h l o = h.
Proof.
  revert l; induction h as [|x h IH]; intros [|l]; simpl; try discriminate.
  - now intros [= ->].
  - intros H. now rewrite IH.
Qed.

Lemma edit_loop_unedited (h : heap) (l : loc) (items : list value) :
  (forall label value key, text_area label value key = value) ->
  nth_error h l = Some (OList items) ->
  forall (rest : list value) (sl : list slide) (a : nat),
    read_slides h rest = Some sl ->
    (forall j v, nth_error rest j = Some v -> nth_error items (a + j) = Some v) ->
    mfor_each (combine (map Z.of_nat (seq a (List.length rest))) rest) tt
      (edit_loop_body text_area (VRef l)) h
    = (h, Ok tt).
Proof.
  intros Hid Hl. induction rest as [|v rest IH]; intros sl a Hsl Hat;
    [reflexivity|].
  cbn [read_slides] in Hsl.
  destruct (read_slide h v) as [s|] eqn:Ev; [|discriminate].
  destruct (read_slides h rest) as [sl'|] eqn:Er; [|discriminate].
  cbn [List.length seq map combine mfor_each].
  unfold mbind. rewrite (edit_loop_body_run _ _ _ _ _ Ev), Hid.
  assert (Hget : list_getitem items (Z.of_nat a) = Ok v).
  { apply list_getitem_nth. specialize (Hat 0%nat v eq_refl).
    now rewrite Nat.add_0_r in Hat. }
  destruct (read_slide_dict _ _ _ Ev) as (lv & d & -> & Hd).
  assert (Hc : dict_lookup d (lit "content") = Some (VStr (content s))).
  { destruct (read_slide_fields _ _ _ Ev) as [_ Hc].
    unfold field in Hc. now rewrite Hd in Hc. }
  unfold edit_content.
  unfold mbind at 1. unfold getindex, mbind at 1, deref. rewrite Hl.
  cbn [Ok]. unfold lift. rewrite Hget. cbn [Ok].
  unfold setitem, mbind, deref. rewrite Hd. cbn [Ok].
  rewrite (dict_set_same _ _ _ Hc), (update_same _ _ _ Hd).
  apply (IH sl' (S a) eq_refl).
  intros j w Hj. replace (S a + j)%nat with (a + S j)%nat by lia.
  apply Hat. exact Hj.
Qed.

(** X15. If every widget holds the content it was given (the user changes
    nothing), the edit loop raises nothing and leaves the whole store
    exactly as it was, also when a slide occurs twice in the list. *)
Theorem edit_slides_unedited (h : heap) (slides : value) (sl : list slide) :
  (forall label value key, text_area label value key = value) ->
  read_outline h slides = Some sl ->
  edit_slides text_area slides h = (h, Ok tt).
Proof.
  intros Hid Hsl. unfold read_outline in Hsl.
  destruct slides as [x|l]; [discriminate|].
  destruct (nth_error h l) as [[d|items]|] eqn:Hl; try discriminate.
  rewrite edit_slides_steps.
  unfold mbind at 1. unfold iterate, mbind at 1, deref. rewrite Hl.
  cbn [Ok mret]. rewrite enumerate_seq.
  apply (edit_loop_unedited h l items Hid Hl items sl 0%nat Hsl).
  intros j v Hj. exact Hj.
Qed.

End CallerProperties.

Lemma edit_slides_outline_witness :
  exists h',
    edit_slides demo_text_area (VRef 1) demo_store = (h', Ok tt)
    /\ read_outline h' (VRef 1)
       = Some [ {| title := lit "Slide 1: Intro";
                   content := lit "Hello" ++ nl ++ lit "owls!" |} ]
    /\ [ lit "Slide 1: Intro" ] = [ lit "Slide 1: Intro" ]
    /\ List.length h' = 2%nat.
Proof.
  apply (edit_slides_outline demo_text_area demo_store 1%nat [VRef 0%nat]
           [demo_slide]); try reflexivity.
  repeat constructor. intros [].
Defined.

Lemma edit_slides_unedited_witness :
  edit_slides (fun _ value _ => value) (VRef 1) demo_store
  = (demo_store, Ok tt).
Proof.
  apply (edit_slides_unedited (fun _ value _ => value) demo_store (VRef 1)
           [demo_slide]); reflexivity.
Defined.

(** ** The data path of [main] *)

Lemma seq_NoDup_refs (a n : nat) : NoDup (map VRef (seq a n)).
Proof.
  revert a; induction n as [|n IH]; intros a; cbn [seq map]; constructor.
  - intros H. apply in_map_iff in H. destruct H as (x & [= <-] & Hx).
    apply in_seq in Hx. lia.
  - apply IH.
Qed.

(** The objects of a stored outline: the dicts, then the list of them. *)
Lemma store_outline_run (sl : list slide) (h : heap) :
  store_outline sl h
  = (h ++ map slide_obj sl
       ++ [ OList (map VRef (seq (List.length h) (List.length sl))) ],
     Ok (VRef (List.length h + List.length sl))).
Proof.
  unfold store_outline, mbind. rewrite store_slides_run. cbn [Ok].
  unfold alloc. now rewrite <- app_assoc, length_app, length_map.
Qed.

Lemma truthy_nonempty (s : str) : s <> [] -> truthy s = true.
Proof. destruct s; [contradiction | reflexivity]. Qed.

Section MainProperties.

Variable str_upper : str -> str.
Variable text_area : str -> str -> str -> str.

(** With the button pressed and a topic, [main] generates, stores, edits and
    exports, and raises nothing on the way. *)
Lemma main_data_path_run (h : heap) (topic template_type : str)
    (num_slides : Z) (now_isoformat : str) :
  topic <> [] ->
  exists h' sl json_data,
    generate_detailed_content topic template_type num_slides = Ok sl
    /\ main_data_path str_upper text_area true topic template_type num_slides
         now_isoformat h
       = (h', Ok (Generated
                    ([9989%N] ++ lit " Generated " ++ str_of_int (len sl)
                       ++ lit " slides for '" ++ topic ++ lit "'")
                    json_data
                    (str_replace_char (char " ") (char "_") topic
                       ++ lit "_presentation.json")
                    (render_text str_upper (edited_from text_area 0 sl) topic)
                    (str_replace_char (char " ") (char "_") topic
                       ++ lit "_presentation.txt")))
    /\ read_outline h' (VRef (List.length h + List.length sl))
       = Some (edited_from text_area 0 sl)
    /\ field h' json_data (lit "presentation")
       = Some (VRef (S (List.length h + List.length sl)))
    /\ field h' (VRef (S (List.length h + List.length sl))) (lit "slides")
       = Some (VRef (List.length h + List.length sl)).
Proof.
  intros Ht.
  destruct (resolve_template_total template_type) as (template & Hr & _).
  pose proof (generate_detailed_content_eq topic _ num_slides _ Hr) as Hg.
  set (sl := slides_from topic template_type 0
               (firstn (Z.to_nat num_slides) template)) in *.
  set (l := (List.length h + List.length sl)%nat).
  set (items := map VRef (seq (List.length h) (List.length sl))).
  set (h1 := h ++ map slide_obj sl ++ [OList items]).
  assert (Hl1 : nth_error h1 l = Some (OList items)).
  { unfold h1, l. rewrite app_assoc, nth_error_app2;
      rewrite length_app, length_map; [|lia].
    now rewrite Nat.sub_diag. }
  assert (Hs1 : read_slides h1 items = Some sl)
    by apply read_slides_stored.
  destruct (edit_slides_run text_area h1 l items sl Hl1
              (seq_NoDup_refs _ _) Hs1)
    as (h2 & Hedit & Hout & _ & Hlen2).
  pose proof (export_to_formats_run str_upper h2 now_isoformat (VRef l) topic
                _ Hout) as Hexp.
  assert (Hlen1 : List.length h1 = S l).
  { unfold h1, l. rewrite !length_app, length_map. simpl. lia. }
  exists (exported_store h2 now_isoformat (VRef l) topic), sl,
    (VRef (S (List.length h2))).
  split; [exact Hg|]. split.
  - unfold main_data_path. rewrite (truthy_nonempty _ Ht). cbn [andb].
    unfold mbind at 1. unfold lift. rewrite Hg. cbn [Ok].
    unfold mbind at 1. rewrite store_outline_run. fold l items h1. cbn [Ok].
    unfold mbind at 1. rewrite Hedit. cbn [Ok].
    unfold mbind at 1. rewrite Hexp. cbn [Ok fst snd]. reflexivity.
  - split; [now apply read_outline_grow|].
    fold l. unfold field, exported_store.
    rewrite !nth_error_app2 by lia.
    rewrite Hlen2, Hlen1.
    replace (S (S l) - S l)%nat with 1%nat by lia.
    rewrite Nat.sub_diag.
    cbn [nth_error]. split; reflexivity.
Qed.


(** X17. The record offered for download as JSON holds, under
    ["presentation"] and ["slides"], the list that the edit loop changed:
    its slides read as the edited outline. *)
Theorem main_record_holds_edited_outline (h : heap)
    (topic template_type : str) (num_slides : Z) (now_isoformat : str) :
  topic <> [] ->
  exists h' sl success json_data json_file_name text_content text_file_name
         presentation slides,
    generate_detailed_content topic template_type num_slides = Ok sl
    /\ main_data_path str_upper text_area true topic template_type num_slides
         now_isoformat h
       = (h', Ok (Generated success json_data json_file_name text_content
                    text_file_name))
    /\ field h' json_data (lit "presentation") = Some presentation
    /\ field h' presentation (lit "slides") = Some slides
    /\ read_outline h' slides = Some (edited_from text_area 0 sl).
Proof.
  intros Ht.
  destruct (main_data_path_run h topic template_type num_slides now_isoformat Ht)
    as (h' & sl & json_data & Hg & Hrun & Hout & Hp & Hs).
  exists h', sl. do 5 eexists. do 2 eexists.
  split; [exact Hg|]. split; [exact Hrun|].
  split; [exact Hp|]. split; [exact Hs | exact Hout].
Qed.

(** X18. [main] reports the missing topic exactly when the button is pressed
    with an empty topic; it then generates nothing and leaves the store as
    it was. A topic of blanks is not empty. *)
Theorem main_topic_error_iff (h : heap) (generate_btn : bool)
    (topic template_type : str) (num_slides : Z) (now_isoformat : str)
    (message : str) :
  snd (main_data_path str_upper text_area generate_btn topic template_type
         num_slides now_isoformat h)
  = Ok (TopicError message)
  <-> generate_btn = true
      /\ topic = []
      /\ message = [9888%N; 65039%N]
                     ++ lit " Please enter a topic to generate your presentation!"
      /\ fst (main_data_path str_upper text_area generate_btn topic
                template_type num_slides now_isoformat h) = h.
Proof.
  split.
  - destruct generate_btn.
    + destruct topic as [|a topic].
      * unfold main_data_path. cbn [truthy andb negb mret snd fst].
        intros [= <-]. repeat split.
      * destruct (main_data_path_run h (a :: topic) template_type num_slides
                    now_isoformat ltac:(discriminate))
          as (h' & sl & json_data & _ & Hrun & _).
        rewrite Hrun. discriminate.
    + unfold main_data_path. cbn [andb mret snd]. discriminate.
  - intros (-> & -> & -> & _). reflexivity.
Qed.

End MainProperties.

(** X19. Neither file name offered for download has a space in it, whatever
    the topic: every space of the topic has become an underscore. *)
Theorem file_names_no_space (topic : str) :
  ~ In (char " ")
      (str_replace_char (char " ") (char "_") topic ++ lit "_presentation.json")
  /\ ~ In (char " ")
        (str_replace_char (char " ") (char "_") topic ++ lit "_presentation.txt").
Proof.
  assert (Hm : ~ In (char " ") (str_replace_char (char " ") (char "_") topic)).
  { unfold str_replace_char. intros H. apply in_map_iff in H.
    destruct H as (c & Hc & _).
    destruct (N.eqb c (char " ")) eqn:E; [discriminate|].
    apply N.eqb_neq in E. contradiction. }
  split; intros H; apply in_app_or in H; destruct H as [H|H];
    try (apply Hm, H);
    vm_compute in H; repeat (destruct H as [H|H]; [discriminate H|]); exact H.
Qed.


Lemma main_record_holds_edited_outline_witness :
  exists h' sl success json_data json_file_name text_content text_file_name
         presentation slides,
    generate_detailed_content (lit "Barn owls") (lit "research") 1 = Ok sl
    /\ main_data_path ascii_upper demo_text_area true (lit "Barn owls")
         (lit "research") 1 (lit "2024-05-01T10:00:00") []
       = (h', Ok (Generated success json_data json_file_name text_content
                    text_file_name))
    /\ field h' json_data (lit "presentation") = Some presentation
    /\ field h' presentation (lit "slides") = Some slides
    /\ read_outline h' slides = Some (edited_from demo_text_area 0 sl).
Proof.
  apply main_record_holds_edited_outline. intros H. discriminate H.
Defined.

(** One run of the data path, from the button to the two downloads. *)
Example main_data_path_barn_owls :
  snd (main_data_path ascii_upper demo_text_area true (lit "Barn owls")
         (lit "research") 1 (lit "2024-05-01T10:00:00") [])
  = Ok (Generated
          ([9989%N] ++ lit " Generated 1 slides for 'Barn owls'")
          (VRef 3)
          (lit "Barn_owls_presentation.json")
          (lit "PRESENTATION: BARN OWLS" ++ nl
             ++ lit "==================================================" ++ nl
             ++ nl
             ++ lit "Slide 1: Research Question" ++ nl
             ++ lit "--------------------------" ++ nl
             ++ lit "Key research questions driving our study of Barn owls!" ++ nl
             ++ nl)
          (lit "Barn_owls_presentation.txt")).
Proof. vm_compute. reflexivity. Qed.
